(** * SyntheticVisionMath: trajectory prediction and terrain clearance

    A shallow embedding of the Python sources

    - [terrain_checker.py]   (class [TerrainChecker]),
    - [matrix_to_earth.py]   ([get_rotation_matrix]),
    - [equation_of_flight.py] (class [FlightEquations]),
    - [math/RK4.py]          ([rk4_step]),
    - [math/trajectory_prediction.py] (class [TrajectoryPredictor]),
    - [math/test.py]         ([predict_from_point]),

    (part I), followed by the notions the statements are written with
    (part II), by the properties proved of the specification (part III)
    and by further properties of the sources (part IV).

    Numeric conventions.  The terrain checker is modelled over IEEE-754
    binary64, the format of Python's [float] and numpy's [float64], through
    the primitive floats of the prover: its properties speak about
    infinities, NaN and the exact result of a rounded computation.  So is
    the number of steps of a prediction, [int(prediction_time / dt)]: the
    quotient is the rounded one, and the call raises where Python does.
    The states of the trajectory engine (rotation matrix, flight equations,
    Runge-Kutta step, the arrays of the predictor) are modelled over the
    real numbers: the properties proved of them are algebraic identities
    between formulas, and numpy's rounding, which the sources do not
    determine (matrix products, [cos], [sin], [arctan2]), is idealised
    away.  The step [dt] enters the integration with the real number it
    stands for.

    A Python exception is the outcome [Raises]; a Python [None] result is
    the [None] of an [option]. *)

From Stdlib Require Import String Ascii.
From Stdlib Require Import ZArith List Bool Lia.
From Stdlib Require Import Floats Uint63.
From Stdlib Require Import Reals Lra.
Import ListNotations.

Set Warnings "-inexact-float".

(** * Part I: the program *)

(** ** Outcomes of Python calls *)

Inductive outcome (A : Type) : Type :=
| Returns (value : A)
| Raises.

Arguments Returns {A} value.
Arguments Raises {A}.

Definition bind {A B : Type} (m : outcome A) (k : A -> outcome B) : outcome B :=
  match m with
  | Returns a => k a
  | Raises => Raises
  end.

Declare Scope outcome_scope.
Delimit Scope outcome_scope with outcome.
Notation "x <- m ;; k" := (bind m (fun x => k))
  (at level 61, m at next level, right associativity) : outcome_scope.

(** [seq[i]] for a non-negative index: [IndexError] past the end. *)
Definition getitem {A : Type} (l : list A) (i : nat) : outcome A :=
  match nth_error l i with
  | Some a => Returns a
  | None => Raises
  end.

(** ** Calls that leave a trace

    A computation that acts on the outside (statements sent to a database,
    lines printed): the events it produced, oldest first, and its outcome. *)

Definition traced (E A : Type) : Type := (list E * outcome A)%type.

Definition tret {E A : Type} (a : A) : traced E A := ([], Returns a).

Definition tbind {E A B : Type} (m : traced E A) (k : A -> traced E B) : traced E B :=
  match m with
  | (log, Returns a) => let (log', r) := k a in (log ++ log', r)
  | (log, Raises) => (log, Raises)
  end.

(** One event, then the outcome of the call that produced it. *)
Definition emit {E A : Type} (e : E) (response : outcome A) : traced E A :=
  ([e], response).

Definition lift {E A : Type} (m : outcome A) : traced E A := ([], m).

Declare Scope traced_scope.
Delimit Scope traced_scope with traced.
Notation "x <- m ;; k" := (tbind m (fun x => k))
  (at level 61, m at next level, right associativity) : traced_scope.

(** ** The parts of the Python runtime the sources rely on *)

Module Py.

(** [float(n)] for an [int]: exact below 2^53, rounded to nearest even above,
    [OverflowError] when the rounded value is not finite. *)
Definition float_of_int (n : Z) : outcome float :=
  if (Z.abs n <? 2 ^ 53)%Z then
    let f := of_uint63 (Uint63.of_Z (Z.abs n)) in
    Returns (if (n <? 0)%Z then (- f)%float else f)
  else
    let f := SF2Prim (binary_normalize prec emax n 0 false) in
    if is_infinity f then Raises else Returns f.

(** [int(x)] for a [float]: truncation toward zero; [ValueError] on NaN,
    [OverflowError] on an infinity. *)
Definition int_of_float (x : float) : outcome Z :=
  match Prim2SF x with
  | S754_zero _ => Returns 0%Z
  | S754_finite s m e =>
      let magnitude :=
        if (0 <=? e)%Z then (Zpos m * 2 ^ e)%Z else (Zpos m / 2 ^ (- e))%Z in
      Returns (if s then (- magnitude)%Z else magnitude)
  | S754_infinity _ => Raises
  | S754_nan => Raises
  end.

(** [x / y] on [float]: [ZeroDivisionError] for a divisor that is zero. *)
Definition truediv (x y : float) : outcome float :=
  if (y =? 0)%float then Raises else Returns (x / y)%float.

(** [a << b] on [int]: [ValueError] for a negative shift count. *)
Definition lshift (a b : Z) : outcome Z :=
  if (b <? 0)%Z then Raises else Returns (Z.shiftl a b).

(** [x > y] on floats. *)
Definition gt (x y : float) : bool := (y <? x)%float.

(** [str.lower] on the ASCII letters. A lowered string contains the ASCII
    word looked for below only where the ASCII letters of the original spell
    it, so the other code points are left alone. *)
Definition lower_ascii (c : ascii) : ascii :=
  let n := nat_of_ascii c in
  if (65 <=? n)%nat && (n <=? 90)%nat then ascii_of_nat (n + 32) else c.

Fixpoint lower (s : string) : string :=
  match s with
  | EmptyString => EmptyString
  | String c rest => String (lower_ascii c) (lower rest)
  end.

(** [needle in hay] on strings. *)
Fixpoint contains (needle hay : string) : bool :=
  String.prefix needle hay ||
  match hay with
  | EmptyString => false
  | String _ rest => contains needle rest
  end.

End Py.

(** ** terrain_checker.py *)

Module TerrainChecker.

Local Open Scope float_scope.

(** A value stored in a column of the tile database. [SqlNull] is what the
    sqlite3 module hands to Python as [None]. *)
Inductive sql_value : Type :=
| SqlNull
| SqlInteger (n : Z)
| SqlReal (x : float)
| SqlText (s : string)
| SqlBlob (b : list Byte.byte).

(** The statements [TerrainChecker] sends through its cursor:
    - [QueryTables]: the names of the tables in [sqlite_master];
    - [QueryTableInfo table]: [PRAGMA table_info(table)];
    - [QuerySelectTile table zoom_level tile_column tile_row]: the row of
      [table] selected by the three bound parameters, in this order. *)
Inductive db_query : Type :=
| QueryTables
| QueryTableInfo (table : string)
| QuerySelectTile (table : string) (zoom_level tile_column tile_row : Z).

(** [mercantile.LngLatBbox]. *)
Record LngLatBbox : Type := {
  west : float;
  south : float;
  east : float;
  north : float
}.

(** ['tile' in col.lower()] *)
Definition is_tile_column (col : string) : bool :=
  Py.contains "tile" (Py.lower col).

(** [next(i for i, col in enumerate(columns) if 'tile' in col.lower())]:
    [StopIteration] when no column qualifies. *)
Fixpoint first_tile_index (columns : list string) : outcome nat :=
  match columns with
  | [] => Raises
  | col :: rest =>
      if is_tile_column col then Returns O
      else (i <- first_tile_index rest ;; Returns (S i))%outcome
  end.

(** [get_collision_warning_level] (lines 159-173). *)
Definition get_collision_warning_level (distance : float) : Z :=
  if Py.gt distance 1000 then 0%Z
  else if Py.gt distance 500 then 1%Z
  else if Py.gt distance 200 then 2%Z
  else 3%Z.

(** The decoding expression of [get_elevation] (lines 129-130):
    [-10000 + ((r * 256 * 256 + g * 256 + b) * 0.1)], the sum of products an
    [int], the product by [0.1] and the sum with [-10000] in binary64. *)
Definition decode_elevation (r g b : Z) : outcome float :=
  (n <- Py.float_of_int (r * 256 * 256 + g * 256 + b) ;;
   Returns (-10000 + (n * 0.1)))%outcome.

(** What the class is given: the database behind its cursor, the
    [mercantile] tiling functions, PIL's image decoder and [numpy.degrees].

    - [fetch_tables], [fetch_table_info], [fetch_tile_row]: the response of
      the (read-only) database to each statement, after the fetch: the table
      names, the column names of a table, and [fetchone()] of the tile
      selection;
    - [mercantile_tile lng lat zoom]: the [x] and [y] of
      [mercantile.tile(lng, lat, zoom)]; [mercantile_bounds x y z]:
      [mercantile.bounds(x, y, z)];
    - [Image_open data]: [Image.open(BytesIO(data))], with the image's
      [width], [height] and [getpixel((x, y))]: the channel values of the
      pixel (a pixel that is no tuple fails to unpack like a tuple of another
      length than three);
    - [np_degrees]: [numpy.degrees]. *)
Record environment : Type := {
  fetch_tables : outcome (list string);
  fetch_table_info : string -> outcome (list string);
  fetch_tile_row : string -> Z -> Z -> Z -> outcome (option (list sql_value));
  mercantile_tile : float -> float -> Z -> outcome (Z * Z);
  mercantile_bounds : Z -> Z -> Z -> outcome LngLatBbox;
  image : Type;
  Image_open : list Byte.byte -> outcome image;
  image_width : image -> Z;
  image_height : image -> Z;
  image_getpixel : image -> Z -> Z -> outcome (list Z);
  np_degrees : float -> float
}.

Section Checker.

Variable env : environment.

(** The loop of [_get_tile_data] (lines 66-72) that looks for the first table
    with a column named like a tile. *)
Fixpoint find_tile_table (tables : list string) : traced db_query (option string) :=
  match tables with
  | [] => tret None
  | table :: rest =>
      (columns <- emit (QueryTableInfo table) (fetch_table_info env table) ;;
       if existsb is_tile_column columns then tret (Some table)
       else find_tile_table rest)%traced
  end.

(** The body of the [try] of [_get_tile_data] (lines 58-87). Each
    [cursor.execute] with its fetch is one event. [if tile_table:] holds for
    a name that is not empty, [if row:] for a row that is not empty. *)
Definition _get_tile_data_try (x y z : Z) : traced db_query sql_value :=
  (shifted <- lift (Py.lshift 1 z) ;;
   let y := (shifted - 1 - y)%Z in
   tables <- emit QueryTables (fetch_tables env) ;;
   tile_table <- find_tile_table tables ;;
   match tile_table with
   | Some ((String _ _) as tile_table) =>
       row <- emit (QuerySelectTile tile_table z x y) (fetch_tile_row env tile_table z x y) ;;
       match row with
       | Some ((_ :: _) as row) =>
           columns <- emit (QueryTableInfo tile_table) (fetch_table_info env tile_table) ;;
           tile_data_index <- lift (first_tile_index columns) ;;
           lift (getitem row tile_data_index)
       | _ => tret SqlNull
       end
   | _ => tret SqlNull
   end)%traced.

(** [_get_tile_data] (lines 46-90): any exception becomes [None]. The
    statements executed are kept beside the result. *)
Definition _get_tile_data (x y z : Z) : list db_query * sql_value :=
  match _get_tile_data_try x y z with
  | (log, Returns tile_data) => (log, tile_data)
  | (log, Raises) => (log, SqlNull)
  end.

(** [_get_tile_coords] (lines 92-95). *)
Definition _get_tile_coords (lat lon : float) (zoom : Z) : outcome (Z * Z * Z) :=
  (tile <- mercantile_tile env lon lat zoom ;;
   Returns (fst tile, snd tile, zoom))%outcome.

(** [Image.open(BytesIO(tile_data))]: [BytesIO] accepts bytes only. *)
Definition open_tile (tile_data : sql_value) : outcome (image env) :=
  match tile_data with
  | SqlBlob data => Image_open env data
  | _ => Raises
  end.

(** The body of the [try] of [get_elevation] (lines 109-130). *)
Definition get_elevation_try (lat lon : float) : outcome (option float) :=
  (tile <- _get_tile_coords lat lon 14 ;;
   let '(x, y, z) := tile in
   let tile_data := snd (_get_tile_data x y z) in
   match tile_data with
   | SqlNull => Returns None
   | _ =>
       img <- open_tile tile_data ;;
       bbox <- mercantile_bounds env x y z ;;
       width <- Py.float_of_int (image_width env img) ;;
       px <- Py.int_of_float ((lon - west bbox) / (east bbox - west bbox) * width) ;;
       height <- Py.float_of_int (image_height env img) ;;
       py <- Py.int_of_float ((lat - north bbox) / (south bbox - north bbox) * height) ;;
       pixel <- image_getpixel env img px py ;;
       match pixel with
       | [r; g; b] =>
           elevation <- decode_elevation r g b ;;
           Returns (Some elevation)
       | _ => Raises
       end
   end)%outcome.

(** [get_elevation] (lines 97-134): any exception becomes [None]. *)
Definition get_elevation (lat lon : float) : option float :=
  match get_elevation_try lat lon with
  | Returns elevation => elevation
  | Raises => None
  end.

(** The coverage test of [check_collision] (line 148). *)
Definition in_coverage (lat lon : float) : bool :=
  (41.81104 <=? lat) && (lat <=? 81.47299) && (19.3951 <=? lon) && (lon <=? 46.43616).

(** [check_collision] (lines 136-157). *)
Definition check_collision (trajectory_point : list float) : outcome (bool * float) :=
  (p0 <- getitem trajectory_point 0 ;;
   let lat := np_degrees env p0 in
   p1 <- getitem trajectory_point 1 ;;
   let lon := np_degrees env p1 in
   alt <- getitem trajectory_point 2 ;;
   if negb (in_coverage lat lon) then Returns (false, infinity)
   else
     match get_elevation lat lon with
     | None => Returns (false, infinity)
     | Some terrain_height =>
         let distance_to_terrain := alt - terrain_height in
         Returns (distance_to_terrain <? 0, distance_to_terrain)
     end)%outcome.

End Checker.

End TerrainChecker.

(** ** numpy arrays of reals *)

Module Np.

Local Open Scope R_scope.

(** A one-dimensional array and a two-dimensional one, row by row. *)
Definition ndarray : Type := list R.
Definition matrix : Type := list (list R).

Fixpoint zip_with (f : R -> R -> R) (a b : list R) : list R :=
  match a, b with
  | x :: a', y :: b' => f x y :: zip_with f a' b'
  | _, _ => []
  end.

(** [a + b] on one-dimensional arrays: element by element for equal
    lengths, an array of length one is broadcast, any other pair of shapes
    raises [ValueError]. *)
Definition add (a b : ndarray) : outcome ndarray :=
  if Nat.eqb (length a) (length b) then Returns (zip_with Rplus a b)
  else
    match a, b with
    | [x], _ => Returns (map (fun y => x + y) b)
    | _, [y] => Returns (map (fun x => x + y) a)
    | _, _ => Raises
    end.

(** [c * a] for a scalar [c]. *)
Definition scale (c : R) (a : ndarray) : ndarray := map (fun x => c * x) a.

(** The sum of products behind [@]. *)
Definition dot (u v : list R) : R := fold_right Rplus 0 (zip_with Rmult u v).

Definition column (j : nat) (M : matrix) : list R := map (fun row => nth j row 0) M.

(** [M.T] *)
Definition transpose (M : matrix) : matrix :=
  map (fun j => column j M) (seq 0 (length (hd [] M))).

(** [A @ B] for two matrices and [A @ v] for a matrix and a vector. *)
Definition matmul (A B : matrix) : matrix :=
  map (fun row => map (dot row) (transpose B)) A.

Definition matvec (A : matrix) (v : ndarray) : ndarray :=
  map (fun row => dot row v) A.

(** [np.arctan2(y, x)]: the angle of the point [(x, y)], in (-pi, pi]. *)
Definition arctan2 (y x : R) : R :=
  if Rlt_dec 0 x then atan (y / x)
  else if Rlt_dec x 0 then
    if Rle_dec 0 y then atan (y / x) + PI else atan (y / x) - PI
  else if Rlt_dec 0 y then PI / 2
  else if Rlt_dec y 0 then - (PI / 2)
  else 0.

End Np.

(** ** matrix_to_earth.py *)

Module MatrixToEarth.

Local Open Scope R_scope.

(** [get_rotation_matrix] (lines 3-38). *)
Definition get_rotation_matrix (roll pitch heading : R) : Np.matrix :=
  let R_x := [ [1; 0; 0];
               [0; cos roll; - sin roll];
               [0; sin roll; cos roll] ] in
  let R_y := [ [cos pitch; 0; sin pitch];
               [0; 1; 0];
               [- sin pitch; 0; cos pitch] ] in
  let R_z := [ [cos heading; - sin heading; 0];
               [sin heading; cos heading; 0];
               [0; 0; 1] ] in
  let R := Np.matmul (Np.matmul R_z R_y) R_x in
  R.

End MatrixToEarth.

(** ** equation_of_flight.py *)

Module FlightEquations.

Local Open Scope R_scope.

(** The fields set by [__init__]. *)
Definition g : R := 9.81.
Definition R_earth : R := 6371000.0.

(** [calculate_derivatives] (lines 12-72). The two unpackings of three
    values raise unless the state has at least nine entries. *)
Definition calculate_derivatives (state : Np.ndarray) (t : R) : outcome Np.ndarray :=
  match state with
  | lat :: lon :: alt :: vx :: vy :: vz :: roll :: pitch :: heading :: _ =>
      let v_body := [vx; vy; vz] in
      let R := MatrixToEarth.get_rotation_matrix roll pitch heading in
      let v_earth := Np.matvec R v_body in
      let lat_scale := 1.0 / (R_earth + alt) in
      let lon_scale := 1.0 / ((R_earth + alt) * cos lat) in
      let d_lat := nth 0 v_earth 0 * lat_scale in
      let d_lon := nth 1 v_earth 0 * lon_scale in
      let d_alt := nth 2 v_earth 0 in
      let g_earth := [0; 0; - g] in
      let d_v_body := Np.matvec (Np.transpose R) g_earth in
      let d_roll := -0.5 * roll in
      let d_pitch := -0.3 * pitch in
      let v_horiz := sqrt (nth 0 v_body 0 ^ 2 + nth 1 v_body 0 ^ 2) in
      let d_heading :=
        if Rgt_dec v_horiz 1e-6 then
          let target_heading := Np.arctan2 (nth 1 v_body 0) (nth 0 v_body 0) in
          let heading_diff := target_heading - heading in
          let heading_diff := Np.arctan2 (sin heading_diff) (cos heading_diff) in
          0.2 * heading_diff
        else 0 in
      Returns [d_lat; d_lon; d_alt;
               nth 0 d_v_body 0; nth 1 d_v_body 0; nth 2 d_v_body 0;
               d_roll; d_pitch; d_heading]
  | _ => Raises
  end.

End FlightEquations.

(** ** math/RK4.py *)

Module RK4.

Local Open Scope R_scope.
Local Open Scope outcome_scope.

(** [rk4_step] (lines 4-22). *)
Definition rk4_step (derivatives : Np.ndarray -> R -> outcome Np.ndarray)
    (state : Np.ndarray) (dt t : R) : outcome Np.ndarray :=
  k1 <- derivatives state t ;;
  s1 <- Np.add state (Np.scale (dt / 2) k1) ;;
  k2 <- derivatives s1 (t + dt / 2) ;;
  s2 <- Np.add state (Np.scale (dt / 2) k2) ;;
  k3 <- derivatives s2 (t + dt / 2) ;;
  s3 <- Np.add state (Np.scale dt k3) ;;
  k4 <- derivatives s3 (t + dt) ;;
  a <- Np.add k1 (Np.scale 2 k2) ;;
  b <- Np.add a (Np.scale 2 k3) ;;
  c <- Np.add b k4 ;;
  Np.add state (Np.scale (dt / 6) c).

End RK4.

(** ** math/trajectory_prediction.py *)

Module TrajectoryPredictor.

Local Open Scope R_scope.

(** Arrays are objects: a [ref] names one, and the [heap] holds the contents
    of every array created so far, in order of creation. A computation takes
    the heap and leaves a heap, with its result or an exception. *)
Definition ref : Type := nat.
Definition heap : Type := list Np.ndarray.
Definition run (A : Type) : Type := heap -> outcome A * heap.

Definition ret {A : Type} (a : A) : run A := fun h => (Returns a, h).

Definition raise {A : Type} : run A := fun h => (Raises, h).

(** A call that creates no array. *)
Definition of_outcome {A : Type} (m : outcome A) : run A := fun h => (m, h).

Definition sbind {A B : Type} (m : run A) (k : A -> run B) : run B :=
  fun h =>
    match m h with
    | (Returns a, h') => k a h'
    | (Raises, h') => (Raises, h')
    end.

Declare Scope run_scope.
Delimit Scope run_scope with run.
Notation "x <- m ;; k" := (sbind m (fun x => k))
  (at level 61, m at next level, right associativity) : run_scope.

(** The contents of an array, and the creation of a new one. *)
Definition contents (r : ref) : run Np.ndarray :=
  fun h =>
    match nth_error h r with
    | Some a => (Returns a, h)
    | None => (Raises, h)
    end.

Definition new_array (a : Np.ndarray) : run ref :=
  fun h => (Returns (List.length h), h ++ [a]).

(** An assignment into an existing array ([a[i] = v], [a += b], ...) leaves
    it with new contents. Nothing in the predictor does it; it is what a
    caller may do to the arrays it is handed. *)
Fixpoint assign (r : ref) (a : Np.ndarray) (h : heap) : heap :=
  match h, r with
  | [], _ => []
  | _ :: h', O => a :: h'
  | b :: h', S r' => b :: assign r' a h'
  end.

(** [a.copy()] *)
Definition np_copy (r : ref) : run ref :=
  (a <- contents r ;; new_array a)%run.

(** The call [rk4_step(derivatives=self.equations.calculate_derivatives,
    state=state, dt=dt, t=t)] (lines 34-39): the step reads its argument and
    returns a new array; the arrays it creates on the way are reachable from
    nowhere afterwards and are left out of the heap. *)
Definition call_rk4_step (state : ref) (dt t : R) : run ref :=
  (a <- contents state ;;
   match RK4.rk4_step FlightEquations.calculate_derivatives a dt t with
   | Returns a' => new_array a'
   | Raises => raise
   end)%run.

(** The [for] loop of [predict_trajectory] (lines 33-41). *)
Fixpoint predict_loop (dt : R) (steps : nat) (state : ref) (t : R)
    (trajectory : list ref) : run (list ref) :=
  match steps with
  | O => ret trajectory
  | S steps' =>
      (state <- call_rk4_step state dt t ;;
       point <- np_copy state ;;
       predict_loop dt steps' state (t + dt) (trajectory ++ [point]))%run
  end.

(** [int(prediction_time / dt)] (line 28), on binary64 numbers: the
    quotient is rounded, then truncated toward zero. The division raises
    [ZeroDivisionError] for a step that is zero, and [int] raises
    [OverflowError] for a quotient that is infinite and [ValueError] for
    one that is NaN. *)
Definition steps (dt prediction_time : float) : outcome Z :=
  (quotient <- Py.truediv prediction_time dt ;; Py.int_of_float quotient)%outcome.

(** The real number a binary64 number stands for. The arrays of the
    predictor hold reals, and the step enters the integration with this
    value. An infinity and NaN stand for no number; they never reach the
    integration, since the loop makes a step only for a finite [dt]. *)
Definition real_of_float (x : float) : R :=
  match Prim2SF x with
  | S754_finite s m e => (if s then - IZR (Zpos m) else IZR (Zpos m)) * powerRZ 2 e
  | _ => 0
  end.

(** [predict_trajectory] (lines 13-43). The number of steps is computed
    first, before any copy; [range(steps)] is empty for a negative
    [steps]. *)
Definition predict_trajectory (initial_state : ref) (dt prediction_time : float)
    : run (list ref) :=
  (steps <- of_outcome (steps dt prediction_time) ;;
   first <- np_copy initial_state ;;
   state <- np_copy initial_state ;;
   predict_loop (real_of_float dt) (Z.to_nat steps) state 0 [first])%run.

End TrajectoryPredictor.

(** ** math/test.py *)

Module Test.

Local Open Scope float_scope.

(** What [predict_from_point] prints: a warning with its level, time and
    distance (lines 108-110), and the notice of a collision (line 113). *)
Inductive report : Type :=
| Warning (warning_level : Z) (time distance : float)
| CollisionDetected.

(** The keyword arguments of the call of [predict_trajectory]
    (lines 97-98). *)
Definition dt : float := 0.01.
Definition prediction_time : float := 60.0.

Section PredictFromPoint.

(** The arguments [predictor] and [terrain_checker], through the methods
    called on them, and [numpy.radians]. *)
Variable predict_trajectory : list float -> float -> float -> outcome (list (list float)).
Variable check_collision : list float -> outcome (bool * float).
Variable get_collision_warning_level : float -> Z.
Variable np_radians : float -> float.

(** The loop over [enumerate(trajectory)] (lines 102-114), from index [i]. *)
Fixpoint scan (i : nat) (trajectory : list (list float)) : traced report unit :=
  match trajectory with
  | [] => tret tt
  | point :: rest =>
      (checked <- lift (check_collision point) ;;
       let has_collision := fst checked in
       let distance := snd checked in
       let warning_level := get_collision_warning_level distance in
       _ <- (if (0 <? warning_level)%Z then
               index <- lift (Py.float_of_int (Z.of_nat i)) ;;
               let time := index * 0.1 in
               emit (Warning warning_level time distance) (Returns tt)
             else tret tt) ;;
       if has_collision then emit CollisionDetected (Returns tt)
       else scan (S i) rest)%traced
  end.

(** [predict_from_point] (lines 69-116). *)
Definition predict_from_point (nav_data : list (list float)) (point_index : nat)
    : traced report (list (list float)) :=
  (current_data <- lift (getitem nav_data point_index) ;;
   lat <- lift (getitem current_data 6) ;;
   lon <- lift (getitem current_data 7) ;;
   alt <- lift (getitem current_data 8) ;;
   vx <- lift (getitem current_data 3) ;;
   vy <- lift (getitem current_data 4) ;;
   vz <- lift (getitem current_data 5) ;;
   roll <- lift (getitem current_data 0) ;;
   pitch <- lift (getitem current_data 1) ;;
   heading <- lift (getitem current_data 2) ;;
   let initial_state :=
     [np_radians lat; np_radians lon; alt; vx; vy; vz;
      np_radians roll; np_radians pitch; np_radians heading] in
   trajectory <- lift (predict_trajectory initial_state dt prediction_time) ;;
   _ <- scan 0 trajectory ;;
   tret trajectory)%traced.

End PredictFromPoint.

End Test.

(** * Part II: notions used in the statements *)

(** ** The order of binary64 comparisons *)

Module Binary64.

(** The position of a float in the order of the comparisons: the sign class
    first, then exponent and mantissa, both negated for a negative number.
    NaN has no position. *)
Definition rank (f : spec_float) : option (Z * Z * Z) :=
  match f with
  | S754_nan => None
  | S754_infinity true => Some (-2, 0, 0)%Z
  | S754_finite true m e => Some (-1, - e, - Zpos m)%Z
  | S754_zero _ => Some (0, 0, 0)%Z
  | S754_finite false m e => Some (1, e, Zpos m)%Z
  | S754_infinity false => Some (2, 0, 0)%Z
  end.

Definition lex_lt (p q : Z * Z * Z) : Prop :=
  let '(p1, p2, p3) := p in
  let '(q1, q2, q3) := q in
  (p1 < q1 \/ (p1 = q1 /\ (p2 < q2 \/ (p2 = q2 /\ p3 < q3))))%Z.

Definition lex_le (p q : Z * Z * Z) : Prop :=
  let '(p1, p2, p3) := p in
  let '(q1, q2, q3) := q in
  (p1 < q1 \/ (p1 = q1 /\ (p2 < q2 \/ (p2 = q2 /\ p3 <= q3))))%Z.

(** [below true a b]: [a < b]; [below false a b]: [a <= b]. Both fail when
    one side is NaN. *)
Definition below (strict : bool) (a b : spec_float) : Prop :=
  match rank a, rank b with
  | Some p, Some q => if strict then lex_lt p q else lex_le p q
  | _, _ => False
  end.

(** The mantissa [m] at the exponent [e] stands for a number of at least
    one: [1 <= m * 2 ^ e]. *)
Definition at_least_one (m e : Z) : Prop := (1 <= m /\ 2 ^ (- e) <= m)%Z.

End Binary64.

(** ** Rotations of space *)

Module Rotation.

Local Open Scope R_scope.

(** Vectors and matrices of dimension three, the matrices row by row. *)
Definition vec3 : Type := (R * R * R)%type.
Definition mat3 : Type := (vec3 * vec3 * vec3)%type.


Definition dot3 (u v : vec3) : R :=
  let '(u1, u2, u3) := u in
  let '(v1, v2, v3) := v in
  u1 * v1 + u2 * v2 + u3 * v3.

Definition transpose3 (A : mat3) : mat3 :=
  let '((a11, a12, a13), (a21, a22, a23), (a31, a32, a33)) := A in
  ((a11, a21, a31), (a12, a22, a32), (a13, a23, a33)).


Definition mul3 (A B : mat3) : mat3 :=
  let '(r1, r2, r3) := A in
  let '(k1, k2, k3) := transpose3 B in
  ((dot3 r1 k1, dot3 r1 k2, dot3 r1 k3),
   (dot3 r2 k1, dot3 r2 k2, dot3 r2 k3),
   (dot3 r3 k1, dot3 r3 k2, dot3 r3 k3)).

(** The right-handed rotations by an angle about the three axes. *)
Definition Rx (a : R) : mat3 :=
  ((1, 0, 0), (0, cos a, - sin a), (0, sin a, cos a)).

Definition Ry (a : R) : mat3 :=
  ((cos a, 0, sin a), (0, 1, 0), (- sin a, 0, cos a)).

Definition Rz (a : R) : mat3 :=
  ((cos a, - sin a, 0), (sin a, cos a, 0), (0, 0, 1)).

Definition identity3 : mat3 := ((1, 0, 0), (0, 1, 0), (0, 0, 1)).

Definition det3 (A : mat3) : R :=
  let '((a11, a12, a13), (a21, a22, a23), (a31, a32, a33)) := A in
  a11 * (a22 * a33 - a23 * a32) - a12 * (a21 * a33 - a23 * a31)
  + a13 * (a21 * a32 - a22 * a31).


End Rotation.

(** ** Arrays of one shape *)

(** The sum, entry by entry, of two arrays of one shape. *)
Definition vsum (a b : Np.ndarray) : Np.ndarray := Np.zip_with Rplus a b.

(** A derivative function that returns, for every state of [n] entries and
    every time, a derivative of [n] entries. *)
Definition shape_preserving (n : nat) (f : Np.ndarray -> R -> outcome Np.ndarray) : Prop :=
  forall (a : Np.ndarray) (u : R), List.length a = n ->
    exists d, f a u = Returns d /\ List.length d = n.

(** ** Heaps *)

(** The heap [h'] holds the arrays of [h], each with the contents it has in
    [h], followed by arrays created since. *)
Definition grows (h h' : TrajectoryPredictor.heap) : Prop :=
  exists created, h' = h ++ created.

(** ** The statements of the tile selection *)

Definition is_select (q : TerrainChecker.db_query) : bool :=
  match q with
  | TerrainChecker.QuerySelectTile _ _ _ _ => true
  | _ => false
  end.

(** ** Sample inputs *)

Module Samples.

Import TerrainChecker.

Local Open Scope string_scope.

(** The row stored for tile (14, 9904, 5121), at the flipped row 11262. *)
Definition stored (tile_table : string) (columns : list sql_value)
    (table : string) (zoom_level tile_column tile_row : Z) : outcome (option (list sql_value)) :=
  if String.eqb table tile_table then
    if (zoom_level =? 14)%Z && (tile_column =? 9904)%Z && (tile_row =? 11262)%Z
    then Returns (Some columns)
    else Returns None
  else Raises.

Definition tile_bounds : LngLatBbox :=
  {| west := 37.6171875%float; south := 55.7394%float;
     east := 37.63916015625%float; north := 55.7518%float |}.

(** A tile database with the columns of the MBTiles layout in their usual
    order, and an image whose pixels all are (10, 20, 30). *)
Definition mbtiles : environment :=
  {| fetch_tables := Returns ["metadata"; "tiles"];
     fetch_table_info := fun table =>
       if String.eqb table "metadata" then Returns ["name"; "value"]
       else if String.eqb table "tiles"
            then Returns ["zoom_level"; "tile_column"; "tile_row"; "tile_data"]
            else Raises;
     fetch_tile_row :=
       stored "tiles" [SqlInteger 14; SqlInteger 9904; SqlInteger 11262; SqlBlob []];
     mercantile_tile := fun _ _ _ => Returns (9904, 5121)%Z;
     mercantile_bounds := fun _ _ _ => Returns tile_bounds;
     image := unit;
     Image_open := fun _ => Returns tt;
     image_width := fun _ => 256%Z;
     image_height := fun _ => 256%Z;
     image_getpixel := fun _ _ _ => Returns [10; 20; 30]%Z;
     np_degrees := fun x => (x * 57.29577951308232)%float |}.

(** The same database with the image column first. *)
Definition blob_first : environment :=
  {| fetch_tables := Returns ["metadata"; "tiles"];
     fetch_table_info := fun table =>
       if String.eqb table "metadata" then Returns ["name"; "value"]
       else if String.eqb table "tiles"
            then Returns ["tile_data"; "zoom_level"; "tile_column"; "tile_row"]
            else Raises;
     fetch_tile_row :=
       stored "tiles" [SqlBlob []; SqlInteger 14; SqlInteger 9904; SqlInteger 11262];
     mercantile_tile := fun _ _ _ => Returns (9904, 5121)%Z;
     mercantile_bounds := fun _ _ _ => Returns tile_bounds;
     image := unit;
     Image_open := fun _ => Returns tt;
     image_width := fun _ => 256%Z;
     image_height := fun _ => 256%Z;
     image_getpixel := fun _ _ _ => Returns [10; 20; 30]%Z;
     np_degrees := fun x => (x * 57.29577951308232)%float |}.

(** The state of the scenario of the specification: level flight at 50 m/s,
    1000 m above the origin. *)
Definition level_flight : Np.ndarray := [0; 0; 1000; 50; 0; 0; 0; 0; 0]%R.

End Samples.

(** ** Tile tables and points without data *)

Section TileNotions.

Import TerrainChecker.

(** A table whose columns were read and none of which is a tile column. *)
Definition passed_over (env : environment) (table : string) : Prop :=
  exists columns, fetch_table_info env table = Returns columns /\
                  existsb is_tile_column columns = false.

(** No stored row holds bytes under the first tile column of its table. *)
Definition no_image_under_first_tile_column (env : environment) : Prop :=
  forall table z x y row columns i data,
    fetch_tile_row env table z x y = Returns (Some row) ->
    fetch_table_info env table = Returns columns ->
    first_tile_index columns = Returns i ->
    nth_error row i <> Some (SqlBlob data).

(** A point without elevation data: outside the coverage box, or inside with
    an unknown elevation. *)
Definition without_data (env : environment) (point : list float) : Prop :=
  exists lat lon alt rest,
    point = lat :: lon :: alt :: rest /\
    (in_coverage (np_degrees env lat) (np_degrees env lon) = false \/
     get_elevation env (np_degrees env lat) (np_degrees env lon) = None).

End TileNotions.

(** ** The heading rate *)

(** The entry of a derivative that holds the heading rate. *)
Definition heading_rate (state : Np.ndarray) (t : R) : R :=
  match FlightEquations.calculate_derivatives state t with
  | Returns d => nth 8 d 0%R
  | Raises => 0%R
  end.

(** ** The arrays of a trajectory *)

Section TrajectoryNotions.

Import TrajectoryPredictor.

Local Open Scope R_scope.

(** The arrays named by [points] hold the [values], in this order. *)
Definition holds (h : heap) (points : list ref) (values : list Np.ndarray) : Prop :=
  Forall2 (fun p v => nth_error h p = Some v) points values.

(** Each value but the first is the Runge-Kutta step of the one before it, the
    step from the value at index [i] taken at time [t + i * dt]. *)
Definition stepwise (dt t : R) (values : list Np.ndarray) : Prop :=
  forall (i : nat) (a b : Np.ndarray),
    nth_error values i = Some a ->
    nth_error values (S i) = Some b ->
    RK4.rk4_step FlightEquations.calculate_derivatives a dt (t + INR i * dt) = Returns b.

End TrajectoryNotions.

(** * Part III: properties *)

(** ** Comparisons of binary64 numbers *)

Section Binary64Order.

Import Binary64.

Local Open Scope float_scope.

Ltac order_cases :=
  let H := fresh "H" in
  split; intros H; simpl in *;
  try reflexivity; try discriminate; try contradiction; try lia.

(** The comparisons of the format are the comparisons of ranks. *)
Lemma SFcompare_below (a b : spec_float) :
  (SFltb a b = true <-> below true a b) /\ (SFleb a b = true <-> below false a b).
Proof.
  unfold SFltb, SFleb, below.
  destruct a as [sa | sa | | sa ma ea], b as [sb | sb | | sb mb eb];
    try destruct sa; try destruct sb; simpl; split; try solve [order_cases].
  all: change (Pos.compare_cont Eq ma mb) with (Pos.compare ma mb).
  all: destruct (Z.compare_spec ea eb); try solve [order_cases].
  all: destruct (Pos.compare_spec ma mb); solve [order_cases].
Qed.

Lemma ltb_below (x y : float) : (x <? y) = true <-> below true (Prim2SF x) (Prim2SF y).
Proof. rewrite FloatAxioms.ltb_spec. apply SFcompare_below. Qed.

Lemma leb_below (x y : float) : (x <=? y) = true <-> below false (Prim2SF x) (Prim2SF y).
Proof. rewrite FloatAxioms.leb_spec. apply SFcompare_below. Qed.

Lemma ltb_false_below (x y : float) :
  (x <? y) = false <-> ~ below true (Prim2SF x) (Prim2SF y).
Proof. rewrite <- ltb_below. now destruct (x <? y). Qed.

Lemma leb_false_below (x y : float) :
  (x <=? y) = false <-> ~ below false (Prim2SF x) (Prim2SF y).
Proof. rewrite <- leb_below. now destruct (x <=? y). Qed.

End Binary64Order.

(** Turns the comparisons of a goal and of its hypotheses into linear
    arithmetic on ranks: a variable gets an unknown rank, a constant the rank
    it evaluates to. *)
Ltac float_order :=
  unfold Py.gt in *;
  repeat match goal with
  | H : PrimFloat.ltb _ _ = true |- _ => apply ltb_below in H
  | H : PrimFloat.leb _ _ = true |- _ => apply leb_below in H
  | H : PrimFloat.ltb _ _ = false |- _ => apply ltb_false_below in H
  | H : PrimFloat.leb _ _ = false |- _ => apply leb_false_below in H
  | |- PrimFloat.ltb _ _ = true => apply ltb_below
  | |- PrimFloat.leb _ _ = true => apply leb_below
  | |- PrimFloat.ltb _ _ = false => apply ltb_false_below
  | |- PrimFloat.leb _ _ = false => apply leb_false_below
  end;
  unfold Binary64.below in *;
  repeat match goal with
  | |- context [Binary64.rank (Prim2SF ?c)] =>
      first [ is_var c; destruct (Binary64.rank (Prim2SF c)) as [[[? ?] ?] | ]
            | let r := eval vm_compute in (Binary64.rank (Prim2SF c)) in
              change (Binary64.rank (Prim2SF c)) with r ]
  | H : context [Binary64.rank (Prim2SF ?c)] |- _ =>
      first [ is_var c; destruct (Binary64.rank (Prim2SF c)) as [[[? ?] ?] | ]
            | let r := eval vm_compute in (Binary64.rank (Prim2SF c)) in
              change (Binary64.rank (Prim2SF c)) with r in H ]
  end;
  unfold Binary64.lex_lt, Binary64.lex_le in *; simpl in *; try lia; try tauto.

(** ** Quotients of binary64 numbers

    What the number of steps of a prediction needs of the division of the
    format: the quotient of two numbers above zero is not negative, and it is
    at least one when the dividend is at least the divisor. Both are read off
    the definition of the rounded quotient. *)

Section Binary64Rounding.

Import Binary64.

Local Open Scope Z_scope.

(** The exponent of the format for a number of [k] binary digits. *)
Lemma fexp_max (k : Z) : fexp prec emax k = Z.max (k - 53) (- 1074).
Proof. reflexivity. Qed.

(** A mantissa of [d] binary digits lies between [2 ^ (d - 1)] and [2 ^ d]. *)
Lemma digits2_pos_bounds (p : positive) :
  2 ^ (Zpos (digits2_pos p) - 1) <= Zpos p < 2 ^ Zpos (digits2_pos p).
Proof.
  induction p as [p IH | p IH | ]; simpl digits2_pos.
  - rewrite Pos2Z.inj_succ.
    replace (Z.succ (Zpos (digits2_pos p)) - 1) with (Z.succ (Zpos (digits2_pos p) - 1)) by lia.
    rewrite !Z.pow_succ_r by lia. lia.
  - rewrite Pos2Z.inj_succ.
    replace (Z.succ (Zpos (digits2_pos p)) - 1) with (Z.succ (Zpos (digits2_pos p) - 1)) by lia.
    rewrite !Z.pow_succ_r by lia. lia.
  - simpl. lia.
Qed.

(** A shift to the right halves the mantissa; [p] shifts divide it by
    [2 ^ p]. *)
Lemma shr_1_m (mrs : shr_record) :
  0 <= shr_m mrs -> shr_m (shr_1 mrs) = shr_m mrs / 2.
Proof.
  destruct mrs as [m r s]. simpl. intros Hm.
  destruct m as [ | [p | p | ] | p]; simpl; try reflexivity; try lia.
  - rewrite (Pos2Z.inj_xI p). apply (Z.div_unique _ _ _ 1); lia.
  - rewrite (Pos2Z.inj_xO p). apply (Z.div_unique _ _ _ 0); lia.
Qed.

Lemma iter_shr_1_m (p : positive) :
  forall mrs : shr_record,
    0 <= shr_m mrs ->
    shr_m (SpecFloat.iter_pos shr_1 p mrs) = shr_m mrs / 2 ^ Zpos p.
Proof.
  induction p as [p IH | p IH | ]; intros mrs Hm; simpl SpecFloat.iter_pos.
  - assert (Hpow : 2 ^ Zpos p~1 = 2 * (2 ^ Zpos p * 2 ^ Zpos p)).
    { rewrite (Pos2Z.inj_xI p). replace (2 * Zpos p + 1) with (1 + (Zpos p + Zpos p)) by lia.
      rewrite !Z.pow_add_r by lia. now rewrite Z.pow_1_r. }
    assert (H1 : 0 <= shr_m (shr_1 mrs)) by (rewrite shr_1_m by lia; apply Z.div_pos; lia).
    assert (H2 : 0 <= shr_m (SpecFloat.iter_pos shr_1 p (shr_1 mrs)))
      by (rewrite IH by lia; apply Z.div_pos; lia).
    rewrite IH, IH, shr_1_m by lia.
    rewrite !Z.div_div by lia. now rewrite Hpow.
  - assert (Hpow : 2 ^ Zpos p~0 = 2 ^ Zpos p * 2 ^ Zpos p).
    { rewrite (Pos2Z.inj_xO p). replace (2 * Zpos p) with (Zpos p + Zpos p) by lia.
      now rewrite !Z.pow_add_r by lia. }
    assert (H2 : 0 <= shr_m (SpecFloat.iter_pos shr_1 p mrs))
      by (rewrite IH by lia; apply Z.div_pos; lia).
    rewrite IH, IH by lia.
    rewrite !Z.div_div by lia. now rewrite Hpow.
  - rewrite shr_1_m by lia. now rewrite Z.pow_1_r.
Qed.

Lemma shr_record_of_loc_m (m : Z) (l : location) : shr_m (shr_record_of_loc m l) = m.
Proof. now destruct l as [ | [ | | ]]. Qed.

(** The shift that brings a mantissa to the exponent of the format. *)
Lemma shr_fexp_m (m e : Z) (l : location) :
  0 <= m ->
  let n := fexp prec emax (Zdigits2 m + e) - e in
  shr_m (fst (shr_fexp prec emax m e l)) = (if 0 <? n then m / 2 ^ n else m) /\
  snd (shr_fexp prec emax m e l) = (if 0 <? n then e + n else e).
Proof.
  intros Hm n. unfold shr_fexp, shr. fold n.
  destruct n as [ | p | p ]; simpl fst; simpl snd.
  - now rewrite shr_record_of_loc_m.
  - rewrite iter_shr_1_m by now rewrite shr_record_of_loc_m.
    now rewrite shr_record_of_loc_m.
  - now rewrite shr_record_of_loc_m.
Qed.

(** The shift keeps a number of at least one at least one: it drops fewer
    digits than the mantissa has. *)
Lemma shr_fexp_at_least_one (m e : Z) (l : location) :
  at_least_one m e ->
  at_least_one (shr_m (fst (shr_fexp prec emax m e l))) (snd (shr_fexp prec emax m e l)).
Proof.
  intros [Hone Hm].
  destruct (shr_fexp_m m e l) as [-> ->]; [ lia | ].
  set (n := fexp prec emax (Zdigits2 m + e) - e).
  destruct (Z.ltb_spec 0 n) as [Hn | Hn]; [ | now split ].
  assert (Hshift : n <= Zdigits2 m - 1 \/ 0 < - (e + n))
    by (clear - Hn; subst n; rewrite fexp_max in *; lia).
  clearbody n.
  assert (Hdigits : 2 ^ (Zdigits2 m - 1) <= m).
  { destruct m as [ | p | p]; try lia. apply digits2_pos_bounds. }
  assert (Hpow : 0 < 2 ^ n) by (apply Z.pow_pos_nonneg; lia).
  assert (Hkeep : n <= Zdigits2 m - 1 -> 1 <= m / 2 ^ n).
  { intros Hle. apply Z.div_le_lower_bound; [ exact Hpow | ]. rewrite Z.mul_1_r.
    apply Z.le_trans with (2 ^ (Zdigits2 m - 1)); [ | exact Hdigits ].
    apply Z.pow_le_mono_r; [ lia | exact Hle ]. }
  destruct (Z.lt_trichotomy (- (e + n)) 0) as [Hneg | [Hzero | Hpos]].
  - split; [ apply Hkeep; clear - Hshift Hneg; lia | ].
    rewrite Z.pow_neg_r by exact Hneg. apply Z.div_pos; [ | exact Hpow ].
    clear - Hone. lia.
  - assert (H1 : 1 <= m / 2 ^ n) by (apply Hkeep; clear - Hshift Hzero; lia).
    split; [ exact H1 | ]. now rewrite Hzero, Z.pow_0_r.
  - assert (Hlow : 2 ^ (- (e + n)) <= m / 2 ^ n).
    { apply Z.div_le_lower_bound; [ exact Hpow | ].
      rewrite <- Z.pow_add_r by (clear - Hn Hpos; lia).
      now replace (n + - (e + n)) with (- e) by (clear; lia). }
    split; [ | exact Hlow ].
    apply Z.le_trans with (2 ^ (- (e + n))); [ | exact Hlow ].
    assert (0 < 2 ^ (- (e + n))) by (apply Z.pow_pos_nonneg; clear - Hpos; lia).
    lia.
Qed.

Lemma round_nearest_even_ge (m : Z) (l : location) : m <= round_nearest_even m l.
Proof. destruct l as [ | [ | | ]]; simpl; try lia. destruct (Z.even m); lia. Qed.

Lemma at_least_one_more (m m' e : Z) : m <= m' -> at_least_one m e -> at_least_one m' e.
Proof. unfold at_least_one. lia. Qed.

(** Rounding a number of at least one gives a number of at least one, or an
    infinity. *)
Lemma binary_round_aux_at_least_one (s : bool) (m e : Z) (l : location) :
  at_least_one m e ->
  binary_round_aux prec emax s m e l = S754_infinity s \/
  exists m' e', binary_round_aux prec emax s m e l = S754_finite s m' e' /\
                at_least_one (Zpos m') e'.
Proof.
  intros H. unfold binary_round_aux.
  pose proof (shr_fexp_at_least_one m e l H) as H1.
  destruct (shr_fexp prec emax m e l) as [mrs' e']. simpl fst in H1. simpl snd in H1.
  apply (at_least_one_more _ (round_nearest_even (shr_m mrs') (loc_of_shr_record mrs')))
    in H1; [ | apply round_nearest_even_ge ].
  pose proof (shr_fexp_at_least_one _ _ loc_Exact H1) as H2.
  destruct (shr_fexp prec emax _ e' loc_Exact) as [mrs'' e'']. simpl fst in H2. simpl snd in H2.
  destruct (shr_m mrs'') as [ | p | p ]; try (destruct H2; lia).
  destruct (e'' <=? emax - prec); [ right | now left ].
  now exists p, e''.
Qed.

Lemma shr_fexp_nonneg (m e : Z) (l : location) :
  0 <= m -> 0 <= shr_m (fst (shr_fexp prec emax m e l)).
Proof.
  intros H. destruct (shr_fexp_m m e l H) as [-> _].
  destruct (Z.ltb_spec 0 (fexp prec emax (Zdigits2 m + e) - e)) as [Hn | Hn]; [ | exact H ].
  apply Z.div_pos; [ exact H | ]. apply Z.pow_pos_nonneg; lia.
Qed.

(** Rounding a number that is not negative gives a zero, a finite number or
    an infinity of the sign asked for. *)
Lemma binary_round_aux_sign (s : bool) (m e : Z) (l : location) :
  0 <= m ->
  match binary_round_aux prec emax s m e l with
  | S754_zero s' | S754_infinity s' | S754_finite s' _ _ => s' = s
  | S754_nan => False
  end.
Proof.
  intros H. unfold binary_round_aux.
  pose proof (shr_fexp_nonneg m e l H) as H1.
  destruct (shr_fexp prec emax m e l) as [mrs' e']. simpl fst in H1.
  assert (H1' : 0 <= round_nearest_even (shr_m mrs') (loc_of_shr_record mrs'))
    by (apply Z.le_trans with (shr_m mrs'); [ exact H1 | apply round_nearest_even_ge ]).
  pose proof (shr_fexp_nonneg _ e' loc_Exact H1') as H2.
  destruct (shr_fexp prec emax _ e' loc_Exact) as [mrs'' e'']. simpl fst in H2.
  destruct (shr_m mrs'') as [ | p | p ]; try reflexivity; try lia.
  now destruct (e'' <=? emax - prec).
Qed.

(** A number of the format has at most 53 digits, and exactly 53 above the
    least exponent. *)
Lemma bounded_digits (m : positive) (e : Z) :
  SpecFloat.bounded prec emax m e = true ->
  Zpos (digits2_pos m) <= 53 /\ - 1074 <= e /\
  (Zpos (digits2_pos m) = 53 \/ e = - 1074).
Proof.
  unfold SpecFloat.bounded, canonical_mantissa. rewrite fexp_max.
  intros H. apply andb_true_iff in H. destruct H as [H _].
  apply Z.eqb_eq in H. lia.
Qed.

(** The quotient before rounding: its mantissa and its exponent. *)
Lemma SFdiv_core_binary_spec (mx my : positive) (ex ey : Z) :
  let e' := Z.min (Z.max (Zpos (digits2_pos mx) + ex - (Zpos (digits2_pos my) + ey) - 53)
                         (- 1074)) (ex - ey) in
  let s := ex - ey - e' in
  SFdiv_core_binary prec emax (Zpos mx) ex (Zpos my) ey
  = (Zpos mx * 2 ^ s / Zpos my, e',
     new_location (Zpos my) (Zpos mx * 2 ^ s mod Zpos my)).
Proof.
  intros e' s.
  assert (Hs : 0 <= s) by (unfold s, e'; lia).
  unfold SFdiv_core_binary.
  change (Z.min (fexp prec emax (Zdigits2 (Zpos mx) + ex - (Zdigits2 (Zpos my) + ey))) (ex - ey))
    with e'.
  fold s. clearbody s e'.
  assert (Hm : match s with Zpos _ => Z.shiftl (Zpos mx) s | 0 => Zpos mx | Zneg _ => 0 end
               = Zpos mx * 2 ^ s).
  { destruct s as [ | p | p ]; try lia. now rewrite Z.shiftl_mul_pow2. }
  rewrite Hm. unfold Z.div, Z.modulo.
  now destruct (Z.div_eucl (Zpos mx * 2 ^ s) (Zpos my)).
Qed.

(** Before rounding, the quotient of a number by a smaller one is at least
    one. *)
Lemma SFdiv_core_at_least_one (mx my : positive) (ex ey : Z) :
  SpecFloat.bounded prec emax mx ex = true ->
  SpecFloat.bounded prec emax my ey = true ->
  ey < ex \/ (ex = ey /\ Zpos my <= Zpos mx) ->
  at_least_one (fst (fst (SFdiv_core_binary prec emax (Zpos mx) ex (Zpos my) ey)))
               (snd (fst (SFdiv_core_binary prec emax (Zpos mx) ex (Zpos my) ey))).
Proof.
  intros Hx Hy Hle. rewrite SFdiv_core_binary_spec. cbn [fst snd].
  apply bounded_digits in Hx, Hy.
  pose proof (digits2_pos_bounds mx) as Bx. pose proof (digits2_pos_bounds my) as By.
  set (dx := Zpos (digits2_pos mx)) in *. set (dy := Zpos (digits2_pos my)) in *.
  set (e' := Z.min (Z.max (dx + ex - (dy + ey) - 53) (- 1074)) (ex - ey)).
  set (D := ex - ey).
  assert (HD : 0 <= D) by (unfold D; lia).
  assert (Hscaled : Zpos my <= Zpos mx * 2 ^ D).
  { destruct Hle as [Hlt | [-> Hle]].
    - assert (Hdx : dx = 53) by lia.
      assert (Hbig : Zpos my < 2 * Zpos mx).
      { apply Z.lt_le_trans with (2 ^ dy); [ apply By | ].
        apply Z.le_trans with (2 ^ 53); [ apply Z.pow_le_mono_r; lia | ].
        rewrite Hdx in Bx. change (2 ^ (53 - 1)) with 4503599627370496 in Bx.
        change (2 ^ 53) with 9007199254740992. lia. }
      assert (2 ^ 1 <= 2 ^ D) by (apply Z.pow_le_mono_r; unfold D; lia).
      rewrite Z.pow_1_r in *. nia.
    - unfold D. rewrite Z.sub_diag, Z.pow_0_r. lia. }
  assert (He' : e' <= D) by (unfold e', D; lia).
  replace (ex - ey - e') with (D - e') by reflexivity.
  assert (Hpos : 0 < Zpos my) by lia.
  assert (Hone : Zpos my <= Zpos mx * 2 ^ (D - e')).
  { destruct (Z.le_gt_cases e' 0) as [Hneg | Hpos'].
    - assert (2 ^ D <= 2 ^ (D - e')) by (apply Z.pow_le_mono_r; lia).
      assert (0 < Zpos mx) by lia. nia.
    - assert (Hshift : dy <= D - e') by (unfold e', D in *; lia).
      assert (2 ^ dy <= 2 ^ (D - e')) by (apply Z.pow_le_mono_r; lia).
      assert (0 < 2 ^ dy) by (apply Z.pow_pos_nonneg; lia).
      assert (1 <= Zpos mx) by lia. nia. }
  split.
  - apply Z.div_le_lower_bound; [ exact Hpos | ]. now rewrite Z.mul_1_r.
  - destruct (Z.le_gt_cases e' 0) as [Hneg | Hpos'].
    + apply Z.div_le_lower_bound; [ exact Hpos | ].
      assert (Hsplit : 2 ^ (D - e') = 2 ^ D * 2 ^ (- e'))
        by (rewrite <- Z.pow_add_r by lia; f_equal; lia).
      rewrite Hsplit.
      assert (0 <= 2 ^ (- e')) by (apply Z.pow_nonneg; lia). nia.
    + rewrite Z.pow_neg_r by lia. apply Z.div_pos; [ | exact Hpos ].
      assert (0 <= 2 ^ (D - e')) by (apply Z.pow_nonneg; lia). nia.
Qed.

(** The quotient of two positive finite numbers, the first at least the
    second: an infinity or a number of at least one. *)
Lemma SFdiv_at_least_one (mx my : positive) (ex ey : Z) :
  SpecFloat.bounded prec emax mx ex = true ->
  SpecFloat.bounded prec emax my ey = true ->
  SFleb (S754_finite false my ey) (S754_finite false mx ex) = true ->
  SFdiv prec emax (S754_finite false mx ex) (S754_finite false my ey) = S754_infinity false \/
  exists m e, SFdiv prec emax (S754_finite false mx ex) (S754_finite false my ey)
              = S754_finite false m e /\ at_least_one (Zpos m) e.
Proof.
  intros Hx Hy Hle.
  assert (Horder : ey < ex \/ (ex = ey /\ Zpos my <= Zpos mx)).
  { unfold SFleb, SFcompare in Hle.
    change (Pos.compare_cont Eq my mx) with (Pos.compare my mx) in Hle.
    destruct (Z.compare_spec ey ex) as [Heq | Hlt | Hgt]; try discriminate.
    - right. split; [ now symmetry | ].
      destruct (Pos.compare_spec my mx); try discriminate; lia.
    - now left. }
  pose proof (SFdiv_core_at_least_one mx my ex ey Hx Hy Horder) as H.
  unfold SFdiv.
  destruct (SFdiv_core_binary prec emax (Zpos mx) ex (Zpos my) ey) as [[q e'] l].
  simpl in H. now apply binary_round_aux_at_least_one.
Qed.

(** The quotient of two positive finite numbers has no negative sign. *)
Lemma SFdiv_sign (mx my : positive) (ex ey : Z) :
  match SFdiv prec emax (S754_finite false mx ex) (S754_finite false my ey) with
  | S754_zero s | S754_infinity s | S754_finite s _ _ => s = false
  | S754_nan => False
  end.
Proof.
  unfold SFdiv. rewrite SFdiv_core_binary_spec.
  apply binary_round_aux_sign. apply Z.div_pos; [ | lia ].
  assert (0 <= 2 ^ (ex - ey - Z.min (Z.max (Zpos (digits2_pos mx) + ex - (Zpos (digits2_pos my) + ey) - 53) (- 1074)) (ex - ey)))
    by (apply Z.pow_nonneg; lia).
  nia.
Qed.

End Binary64Rounding.

Section Binary64Quotient.

Import Binary64.

Local Open Scope float_scope.

(** A number above zero is a finite number or an infinity with no negative
    sign. *)
Lemma positive_cases (x : float) :
  (0 <? x) = true ->
  Prim2SF x = S754_infinity false \/
  exists m e, Prim2SF x = S754_finite false m e /\ SpecFloat.bounded prec emax m e = true.
Proof.
  intros H. rewrite FloatAxioms.ltb_spec in H.
  pose proof (FloatAxioms.Prim2SF_valid x) as Hvalid.
  change (Prim2SF 0) with (S754_zero false) in H.
  destruct (Prim2SF x) as [s | [ | ] | | [ | ] m e]; try discriminate.
  - now left.
  - right. now exists m, e.
Qed.

Lemma positive_not_zero (x : float) : (0 <? x) = true -> (x =? 0) = false.
Proof.
  intros H. rewrite FloatAxioms.eqb_spec.
  change (Prim2SF 0) with (S754_zero false).
  destruct (positive_cases x H) as [-> | (m & e & -> & _)]; reflexivity.
Qed.

(** The integer part of a finite number, before its sign. *)
Lemma magnitude_not_negative (m : positive) (e : Z) :
  (0 <= if 0 <=? e then Zpos m * 2 ^ e else Zpos m / 2 ^ (- e))%Z.
Proof.
  destruct (Z.leb_spec 0 e) as [He | He].
  - apply Z.mul_nonneg_nonneg; [ lia | apply Z.pow_nonneg; lia ].
  - apply Z.div_pos; [ lia | apply Z.pow_pos_nonneg; lia ].
Qed.

Lemma magnitude_at_least_one (m : positive) (e : Z) :
  at_least_one (Zpos m) e ->
  (1 <= if 0 <=? e then Zpos m * 2 ^ e else Zpos m / 2 ^ (- e))%Z.
Proof.
  intros [Hone Hlow]. destruct (Z.leb_spec 0 e) as [He | He].
  - assert (0 < 2 ^ e)%Z by (apply Z.pow_pos_nonneg; lia). nia.
  - apply Z.div_le_lower_bound; [ apply Z.pow_pos_nonneg; lia | ]. lia.
Qed.

(** The quotient of two numbers above zero, truncated: never negative. *)
Lemma quotient_not_negative (x y : float) (n : Z) :
  (0 <? y) = true -> (0 <? x) = true ->
  Py.int_of_float (x / y) = Returns n -> (0 <= n)%Z.
Proof.
  intros Hy Hx. unfold Py.int_of_float. rewrite FloatAxioms.div_spec.
  destruct (positive_cases x Hx) as [-> | (mx & ex & -> & _)];
    destruct (positive_cases y Hy) as [-> | (my & ey & -> & _)];
    try discriminate.
  - simpl. now intros [= <-].
  - pose proof (SFdiv_sign mx my ex ey) as Hsign.
    unfold SF64div.
    destruct (SFdiv prec emax _ _) as [s | s | | s m e]; try discriminate.
    + now intros [= <-].
    + subst s. intros [= <-]. exact (magnitude_not_negative m e).
Qed.

(** The quotient of a number by a smaller one above zero, truncated: at
    least one. *)
Lemma quotient_at_least_one (x y : float) (n : Z) :
  (0 <? y) = true -> (y <=? x) = true ->
  Py.int_of_float (x / y) = Returns n -> (1 <= n)%Z.
Proof.
  intros Hy Hle.
  assert (Hx : (0 <? x) = true) by float_order.
  rewrite FloatAxioms.leb_spec in Hle.
  unfold Py.int_of_float at 1. rewrite FloatAxioms.div_spec.
  destruct (positive_cases x Hx) as [Ex | (mx & ex & Ex & Bx)];
    destruct (positive_cases y Hy) as [Ey | (my & ey & Ey & By)];
    rewrite Ex, Ey in *; try discriminate.
  unfold SF64div.
  destruct (SFdiv_at_least_one mx my ex ey Bx By Hle) as [-> | (m & e & -> & Hone)];
    [ discriminate | ].
  intros [= <-]. exact (magnitude_at_least_one m e Hone).
Qed.

End Binary64Quotient.

(** ** terrain_checker.py: the warning level *)

Section WarningLevel.

Import TerrainChecker.

Local Open Scope float_scope.

(** C3. [get_collision_warning_level] follows the table of the
    specification: a clearance above 1000 gives 0 (NONE), one in (500, 1000]
    gives 1 (LOW), one in (200, 500] gives 2 (MEDIUM), one of at most 200
    gives 3 (HIGH); the eleven clearances listed map to the levels listed. *)
Theorem warning_level_table :
  (forall clearance : float,
      ((1000 <? clearance) = true -> get_collision_warning_level clearance = 0%Z) /\
      ((500 <? clearance) = true -> (clearance <=? 1000) = true ->
       get_collision_warning_level clearance = 1%Z) /\
      ((200 <? clearance) = true -> (clearance <=? 500) = true ->
       get_collision_warning_level clearance = 2%Z) /\
      ((clearance <=? 200) = true -> get_collision_warning_level clearance = 3%Z)) /\
  map get_collision_warning_level
      [1001; 1000; 999; 501; 500; 499; 201; 200; 199; 0; -50]
  = [0; 1; 1; 1; 2; 2; 2; 3; 3; 3; 3]%Z.
Proof.
  split; [ | vm_compute; reflexivity ].
  intros clearance. unfold get_collision_warning_level.
  repeat split.
  - intros H. unfold Py.gt. now rewrite H.
  - intros H500 H1000.
    replace (Py.gt clearance 1000) with false by (symmetry; float_order).
    unfold Py.gt. now rewrite H500.
  - intros H200 H500.
    replace (Py.gt clearance 1000) with false by (symmetry; float_order).
    replace (Py.gt clearance 500) with false by (symmetry; float_order).
    unfold Py.gt. now rewrite H200.
  - intros H200.
    replace (Py.gt clearance 1000) with false by (symmetry; float_order).
    replace (Py.gt clearance 500) with false by (symmetry; float_order).
    replace (Py.gt clearance 200) with false by (symmetry; float_order).
    reflexivity.
Qed.

(** The four rows of the table at four clearances that satisfy them. *)
Lemma warning_level_table_witness :
  get_collision_warning_level 1500 = 0%Z /\
  get_collision_warning_level 750 = 1%Z /\
  get_collision_warning_level 350 = 2%Z /\
  get_collision_warning_level 100 = 3%Z.
Proof.
  split; [ | split; [ | split ] ].
  - apply (proj1 (proj1 warning_level_table 1500)). reflexivity.
  - apply (proj1 (proj2 (proj1 warning_level_table 750))); reflexivity.
  - apply (proj1 (proj2 (proj2 (proj1 warning_level_table 350)))); reflexivity.
  - apply (proj2 (proj2 (proj2 (proj1 warning_level_table 100)))). reflexivity.
Defined.

(** C10. [get_collision_warning_level] returns one of 0, 1, 2, 3 on every
    float; it returns 0 on +infinity; no number is below NaN nor above it, so
    the three tests fail on NaN and the level is 3. *)
Theorem warning_level_total :
  (forall distance : float,
      In (get_collision_warning_level distance) [0; 1; 2; 3]%Z) /\
  get_collision_warning_level infinity = 0%Z /\
  (forall bound : float, Py.gt nan bound = false /\ Py.gt bound nan = false) /\
  get_collision_warning_level nan = 3%Z.
Proof.
  split; [ | split; [ reflexivity | split; [ | reflexivity ] ] ].
  - intros distance. unfold get_collision_warning_level.
    destruct (Py.gt distance 1000); [ simpl; tauto | ].
    destruct (Py.gt distance 500); [ simpl; tauto | ].
    destruct (Py.gt distance 200); simpl; tauto.
  - intros bound. split; float_order.
Qed.

(** X1. The level never decreases when the clearance does: the step function
    is monotone in the distance. *)
Lemma warning_level_monotone (x y : float) :
  (x <=? y) = true ->
  (get_collision_warning_level y <= get_collision_warning_level x)%Z.
Proof.
  intros Hxy. unfold get_collision_warning_level.
  destruct (Py.gt y 1000) eqn:Hy1;
    [ destruct (Py.gt x 1000), (Py.gt x 500), (Py.gt x 200); lia | ].
  replace (Py.gt x 1000) with false by (symmetry; float_order).
  destruct (Py.gt y 500) eqn:Hy2; [ destruct (Py.gt x 500), (Py.gt x 200); lia | ].
  replace (Py.gt x 500) with false by (symmetry; float_order).
  destruct (Py.gt y 200) eqn:Hy3; [ destruct (Py.gt x 200); lia | ].
  replace (Py.gt x 200) with false by (symmetry; float_order).
  lia.
Qed.

Lemma warning_level_monotone_witness :
  (get_collision_warning_level 600 <= get_collision_warning_level 100)%Z.
Proof. apply (warning_level_monotone 100 600). reflexivity. Defined.

End WarningLevel.

(** ** terrain_checker.py: the elevation of a pixel *)

Section Elevation.

Import TerrainChecker.

Local Open Scope float_scope.

Lemma float_of_int_small (n : Z) :
  (0 <= n < 2 ^ 53)%Z ->
  Py.float_of_int n = Returns (of_uint63 (Uint63.of_Z n)).
Proof.
  intros H. unfold Py.float_of_int.
  rewrite (Z.abs_eq n) by lia.
  destruct (Z.ltb_spec n (2 ^ 53)); [ | lia ].
  destruct (Z.ltb_spec n 0); [ lia | reflexivity ].
Qed.

Lemma decode_elevation_channels (r g b : Z) :
  (0 <= r <= 255)%Z -> (0 <= g <= 255)%Z -> (0 <= b <= 255)%Z ->
  decode_elevation r g b =
  Returns (-10000 + of_uint63 (Uint63.of_Z (r * 65536 + g * 256 + b)) * 0.1).
Proof.
  intros Hr Hg Hb. unfold decode_elevation.
  replace (r * 256 * 256)%Z with (r * 65536)%Z by lia.
  rewrite float_of_int_small by lia. reflexivity.
Qed.

(** C1. For channels between 0 and 255 the elevation decoded is
    [-10000 + (R * 65536 + G * 256 + B) * 0.1], the weighted sum an integer
    converted without rounding, the product and the sum those of binary64;
    [get_elevation] returns this value for the pixel it reads whenever the
    lookup reaches a pixel; for the channels (10, 20, 30) the value is the
    float 56051.0. *)
Theorem get_elevation_decoding :
  (forall r g b : Z,
      (0 <= r <= 255)%Z -> (0 <= g <= 255)%Z -> (0 <= b <= 255)%Z ->
      let elevation_m :=
        -10000 + of_uint63 (Uint63.of_Z (r * 65536 + g * 256 + b)) * 0.1 in
      decode_elevation r g b = Returns elevation_m /\
      forall (env : environment) (lat lon : float) (x y : Z) (data : list Byte.byte)
             (img : image env) (bbox : LngLatBbox) (width height : float) (px py : Z),
        mercantile_tile env lon lat 14 = Returns (x, y) ->
        snd (_get_tile_data env x y 14) = SqlBlob data ->
        Image_open env data = Returns img ->
        mercantile_bounds env x y 14 = Returns bbox ->
        Py.float_of_int (image_width env img) = Returns width ->
        Py.int_of_float ((lon - west bbox) / (east bbox - west bbox) * width) = Returns px ->
        Py.float_of_int (image_height env img) = Returns height ->
        Py.int_of_float ((lat - north bbox) / (south bbox - north bbox) * height) = Returns py ->
        image_getpixel env img px py = Returns [r; g; b] ->
        get_elevation env lat lon = Some elevation_m) /\
  decode_elevation 10 20 30 = Returns 56051.0.
Proof.
  split; [ | vm_compute; reflexivity ].
  intros r g b Hr Hg Hb elevation_m.
  pose proof (decode_elevation_channels r g b Hr Hg Hb) as Hdecode.
  fold elevation_m in Hdecode. split; [ exact Hdecode | ].
  intros env lat lon x y data img bbox width height px py
         Htile Hdata Himg Hbbox Hwidth Hpx Hheight Hpy Hpixel.
  unfold get_elevation, get_elevation_try, _get_tile_coords.
  rewrite Htile. simpl. rewrite Hdata. simpl.
  rewrite Himg. simpl. rewrite Hbbox. simpl.
  rewrite Hwidth. simpl. rewrite Hpx. simpl.
  rewrite Hheight. simpl. rewrite Hpy. simpl.
  rewrite Hpixel. simpl. rewrite Hdecode. reflexivity.
Qed.

(** The operations are those of binary64: for the channels (0, 0, 3) the
    value is the float next to -9999.7, which is no float. *)
Example decode_elevation_rounded :
  decode_elevation 0 0 3 = Returns (-9999.7000000000007).
Proof. vm_compute. reflexivity. Qed.

(** The lookup at (55.75, 37.62) in the sample database reaches the pixel
    (10, 20, 30) and returns 56051.0. *)
Lemma get_elevation_decoding_witness :
  get_elevation Samples.blob_first 55.75 37.62
  = Some (-10000 + of_uint63 (Uint63.of_Z (10 * 65536 + 20 * 256 + 30)) * 0.1).
Proof.
  refine (proj2 (proj1 get_elevation_decoding 10%Z 20%Z 30%Z _ _ _)
            Samples.blob_first 55.75 37.62 9904%Z 5121%Z [] tt Samples.tile_bounds
            256 256 32%Z 37%Z _ _ _ _ _ _ _ _ _);
    try lia; vm_compute; reflexivity.
Defined.

End Elevation.

(** ** terrain_checker.py: points without elevation data *)

Section Coverage.

Import TerrainChecker.

Local Open Scope float_scope.

(** A latitude or a longitude beyond one of the four bounds fails the
    coverage test. *)
Lemma outside_not_in_coverage (lat lon : float) :
  (lat <? 41.81104) = true \/ (81.47299 <? lat) = true \/
  (lon <? 19.3951) = true \/ (46.43616 <? lon) = true ->
  in_coverage lat lon = false.
Proof.
  unfold in_coverage. intros [H | [H | [H | H]]].
  - replace (41.81104 <=? lat) with false by (symmetry; float_order). reflexivity.
  - replace (lat <=? 81.47299) with false by (symmetry; float_order).
    now rewrite andb_false_r.
  - replace (19.3951 <=? lon) with false by (symmetry; float_order).
    now rewrite andb_false_r.
  - replace (lon <=? 46.43616) with false by (symmetry; float_order).
    now rewrite andb_false_r.
Qed.

(** C4. When the point, in degrees, lies outside the coverage box (latitude
    in [41.81104, 81.47299], longitude in [19.3951, 46.43616]), or when the
    elevation lookup answers [None], [check_collision] returns, without an
    exception, no collision and a clearance of +infinity, whatever the
    altitude. *)
Theorem check_collision_without_data
    (env : environment) (lat lon alt : float) (rest : list float) :
  let lat_deg := np_degrees env lat in
  let lon_deg := np_degrees env lon in
  ((lat_deg <? 41.81104) = true \/ (81.47299 <? lat_deg) = true \/
   (lon_deg <? 19.3951) = true \/ (46.43616 <? lon_deg) = true)
  \/ get_elevation env lat_deg lon_deg = None ->
  check_collision env (lat :: lon :: alt :: rest) = Returns (false, infinity).
Proof.
  intros lat_deg lon_deg H. unfold check_collision. simpl.
  fold lat_deg lon_deg.
  destruct H as [Houtside | Hunknown].
  - now rewrite (outside_not_in_coverage lat_deg lon_deg Houtside).
  - rewrite Hunknown. now destruct (in_coverage lat_deg lon_deg).
Qed.

(** A point on the equator is outside the box; a point above Moscow is
    inside, and the sample database has no elevation for it. Both at 1000 m
    and at 100000 m the answer is the same. *)
Lemma check_collision_without_data_witness :
  (check_collision Samples.mbtiles [0; 0; 1000] = Returns (false, infinity) /\
   check_collision Samples.mbtiles [0; 0; 100000] = Returns (false, infinity)) /\
  (in_coverage (np_degrees Samples.mbtiles 0.9730) (np_degrees Samples.mbtiles 0.6566) = true /\
   check_collision Samples.mbtiles [0.9730; 0.6566; 1000] = Returns (false, infinity) /\
   check_collision Samples.mbtiles [0.9730; 0.6566; 100000] = Returns (false, infinity)).
Proof.
  split; [ split | split; [ vm_compute; reflexivity | split ] ].
  - apply (check_collision_without_data Samples.mbtiles 0 0 1000 []).
    left. left. vm_compute. reflexivity.
  - apply (check_collision_without_data Samples.mbtiles 0 0 100000 []).
    left. left. vm_compute. reflexivity.
  - apply (check_collision_without_data Samples.mbtiles 0.9730 0.6566 1000 []).
    right. vm_compute. reflexivity.
  - apply (check_collision_without_data Samples.mbtiles 0.9730 0.6566 100000 []).
    right. vm_compute. reflexivity.
Defined.

(** With an elevation the clearance is the altitude less the elevation, and
    the collision flag tells whether it is negative. *)
Lemma check_collision_with_data
    (env : environment) (lat lon alt terrain_height : float) (rest : list float) :
  in_coverage (np_degrees env lat) (np_degrees env lon) = true ->
  get_elevation env (np_degrees env lat) (np_degrees env lon) = Some terrain_height ->
  check_collision env (lat :: lon :: alt :: rest)
  = Returns (alt - terrain_height <? 0, alt - terrain_height).
Proof.
  intros Hcov Helev. unfold check_collision. simpl. now rewrite Hcov, Helev.
Qed.

End Coverage.

(** ** terrain_checker.py: the statements of [_get_tile_data] *)

Section TileFetch.

Import TerrainChecker.

#[local] Arguments tbind : simpl never.

Lemma tbind_log {E A B : Type} (m : traced E A) (k : A -> traced E B) :
  fst (tbind m k) =
  fst m ++ match snd m with Returns a => fst (k a) | Raises => [] end.
Proof.
  destruct m as [log [a | ]]; unfold tbind; simpl.
  - now destruct (k a).
  - now rewrite app_nil_r.
Qed.

Lemma tbind_result {E A B : Type} (m : traced E A) (k : A -> traced E B) :
  snd (tbind m k) = match snd m with Returns a => snd (k a) | Raises => Raises end.
Proof.
  destruct m as [log [a | ]]; unfold tbind; simpl; [ now destruct (k a) | reflexivity ].
Qed.

(** The search for the tile table selects no row. *)
Lemma find_tile_table_log (env : environment) (tables : list string) :
  filter is_select (fst (find_tile_table env tables)) = [].
Proof.
  induction tables as [ | table rest IH]; simpl; [ reflexivity | ].
  rewrite tbind_log. simpl.
  destruct (fetch_table_info env table) as [columns | ]; [ | reflexivity ].
  destruct (existsb is_tile_column columns); [ reflexivity | exact IH ].
Qed.

(** Either no row is selected, and the result is [None], or one selection is
    made, at the flipped row. *)
Lemma get_tile_data_selects (env : environment) (x y z : Z) :
  (filter is_select (fst (_get_tile_data env x y z)) = [] /\
   snd (_get_tile_data env x y z) = SqlNull) \/
  exists table,
    filter is_select (fst (_get_tile_data env x y z))
    = [QuerySelectTile table z x (2 ^ z - 1 - y)].
Proof.
  unfold _get_tile_data.
  destruct (_get_tile_data_try env x y z) as [log r] eqn:E.
  assert (Hlog : log = fst (_get_tile_data_try env x y z)) by now rewrite E.
  assert (Hr : r = snd (_get_tile_data_try env x y z)) by now rewrite E.
  clear E. unfold _get_tile_data_try in Hlog, Hr.
  rewrite tbind_log in Hlog. rewrite tbind_result in Hr.
  unfold Py.lshift in Hlog, Hr. simpl in Hlog, Hr.
  destruct (Z.ltb_spec z 0) as [Hz | Hz]; simpl in Hlog, Hr.
  { subst. now left. }
  rewrite Z.shiftl_1_l in Hlog, Hr.
  rewrite tbind_log in Hlog. rewrite tbind_result in Hr. simpl in Hlog, Hr.
  destruct (fetch_tables env) as [tables | ]; simpl in Hlog, Hr.
  2: { subst. now left. }
  rewrite tbind_log in Hlog. rewrite tbind_result in Hr.
  pose proof (find_tile_table_log env tables) as Hfind.
  destruct (find_tile_table env tables) as [log1 [[[ | c name] | ] | ]];
    simpl in Hlog, Hr, Hfind.
  1, 3, 4: subst; simpl; rewrite ?filter_app, Hfind; now left.
  right. exists (String c name).
  rewrite tbind_log in Hlog. simpl in Hlog.
  assert (Hrest : forall rest, filter is_select rest = [] ->
            log = QueryTables :: log1 ++ QuerySelectTile (String c name) z x (2 ^ z - 1 - y) :: rest ->
            filter is_select (fst (let (l, o) := (log, r) in
                                   match o with
                                   | Returns tile_data => (l, tile_data)
                                   | Raises => (l, SqlNull)
                                   end))
            = [QuerySelectTile (String c name) z x (2 ^ z - 1 - y)]).
  { intros rest Hnone ->. destruct r; simpl; rewrite filter_app, Hfind; simpl;
      now rewrite Hnone. }
  destruct (fetch_tile_row env (String c name) z x (2 ^ z - 1 - y))
    as [[[ | v row] | ] | ]; simpl in Hlog.
  1, 3, 4: now apply (Hrest []).
  rewrite tbind_log in Hlog. simpl in Hlog.
  destruct (fetch_table_info env (String c name)) as [columns | ]; simpl in Hlog.
  2: now apply (Hrest [QueryTableInfo (String c name)]).
  rewrite tbind_log in Hlog. simpl in Hlog.
  apply (Hrest [QueryTableInfo (String c name)]); [ reflexivity | ].
  now destruct (first_tile_index columns).
Qed.

(** C7. Every tile selection that [_get_tile_data x y z] sends to the store
    carries the zoom [z], the column [x] and the flipped row [2^z - 1 - y];
    and a result other than [None] comes with such a selection. *)
Theorem tile_fetch_uses_flipped_row (env : environment) (x y z : Z) :
  (forall (table : string) (zoom_level tile_column tile_row : Z),
      In (QuerySelectTile table zoom_level tile_column tile_row)
         (fst (_get_tile_data env x y z)) ->
      zoom_level = z /\ tile_column = x /\ tile_row = (2 ^ z - 1 - y)%Z) /\
  (snd (_get_tile_data env x y z) <> SqlNull ->
   exists table : string,
     In (QuerySelectTile table z x (2 ^ z - 1 - y)) (fst (_get_tile_data env x y z))).
Proof.
  split.
  - intros table zoom_level tile_column tile_row Hin.
    assert (Hsel : In (QuerySelectTile table zoom_level tile_column tile_row)
                      (filter is_select (fst (_get_tile_data env x y z))))
      by (apply filter_In; now split).
    destruct (get_tile_data_selects env x y z) as [[Hnone _] | [table' Hone]].
    + rewrite Hnone in Hsel. contradiction.
    + rewrite Hone in Hsel. destruct Hsel as [[= -> -> -> ->] | []]. now repeat split.
  - intros Hresult.
    destruct (get_tile_data_selects env x y z) as [[_ Hnull] | [table Hone]];
      [ contradiction | ].
    exists table.
    apply (proj1 (filter_In is_select _ (fst (_get_tile_data env x y z)))).
    rewrite Hone. now left.
Qed.

(** The fetch of tile (14, 9904, 5121) from the sample database: the
    statements sent, with the selection at row 2^14 - 1 - 5121 = 11262. *)
Example get_tile_data_sample :
  fst (_get_tile_data Samples.mbtiles 9904 5121 14)
  = [ QueryTables; QueryTableInfo "metadata"; QueryTableInfo "tiles";
      QuerySelectTile "tiles" 14 9904 11262; QueryTableInfo "tiles" ].
Proof. vm_compute. reflexivity. Qed.

Lemma tile_fetch_uses_flipped_row_witness :
  exists table : string,
    In (QuerySelectTile table 14 9904 (2 ^ 14 - 1 - 5121))
       (fst (_get_tile_data Samples.mbtiles 9904 5121 14)).
Proof.
  apply (proj2 (tile_fetch_uses_flipped_row Samples.mbtiles 9904 5121 14)).
  vm_compute. discriminate.
Defined.

End TileFetch.

(** ** matrix_to_earth.py and equation_of_flight.py *)

Section Derivatives.

Import Rotation.

Local Open Scope R_scope.

(** Splits an equation between lists, or tuples, of real expressions into
    the equations between their entries. *)
Ltac entrywise :=
  repeat match goal with
  | |- (_ :: _) = (_ :: _) => apply (f_equal2 cons)
  | |- (_, _) = (_, _) => apply (f_equal2 pair)
  | |- @nil _ = @nil _ => reflexivity
  end.


(** Each factor is a rotation: orthogonal, of determinant one. *)
Lemma rotations_orthogonal (a : R) :
  (mul3 (transpose3 (Rx a)) (Rx a) = identity3 /\ det3 (Rx a) = 1) /\
  (mul3 (transpose3 (Ry a)) (Ry a) = identity3 /\ det3 (Ry a) = 1) /\
  (mul3 (transpose3 (Rz a)) (Rz a) = identity3 /\ det3 (Rz a) = 1).
Proof.
  assert (H : sin a * sin a + cos a * cos a = 1) by exact (sin2_cos2 a).
  repeat split; unfold mul3, transpose3, Rx, Ry, Rz, identity3, det3, dot3; simpl;
    entrywise; nra.
Qed.

Lemma atan_nonpos (u : R) : u <= 0 -> atan u <= 0.
Proof.
  intros [H | ->]; [ | rewrite atan_0; lra ].
  apply atan_increasing in H. rewrite atan_0 in H. lra.
Qed.

Lemma atan_pos (u : R) : 0 < u -> 0 < atan u.
Proof. intros H. apply atan_increasing in H. now rewrite atan_0 in H. Qed.

(** [arctan2] takes its values in (-pi, pi]. *)
Lemma arctan2_range (y x : R) : - PI < Np.arctan2 y x <= PI.
Proof.
  pose proof PI_RGT_0 as Hpi. unfold Np.arctan2.
  destruct (Rlt_dec 0 x) as [Hx | Hx].
  - pose proof (atan_bound (y / x)). lra.
  - destruct (Rlt_dec x 0) as [Hx' | Hx'].
    + pose proof (atan_bound (y / x)) as Hb.
      pose proof (Rinv_lt_0_compat x Hx') as Hinv.
      destruct (Rle_dec 0 y) as [Hy | Hy].
      * assert (y / x <= 0) by (unfold Rdiv; nra).
        pose proof (atan_nonpos (y / x)). lra.
      * assert (0 < y / x) by (unfold Rdiv; nra).
        pose proof (atan_pos (y / x)). lra.
    + destruct (Rlt_dec 0 y); [ lra | ]. destruct (Rlt_dec y 0); lra.
Qed.






(** The state of level flight. With no rotation the velocity keeps
    its components, and gravity acts along the third body axis alone. *)
Example level_flight_derivatives (t : R) :
  FlightEquations.calculate_derivatives Samples.level_flight t
  = Returns [50 / (6371000.0 + 1000); 0; 0; 0; 0; -9.81; 0; 0; 0].
Proof.
  unfold Samples.level_flight, FlightEquations.calculate_derivatives,
    MatrixToEarth.get_rotation_matrix, Np.matmul, Np.matvec, Np.transpose,
    Np.column, Np.dot, FlightEquations.g, FlightEquations.R_earth.
  simpl. rewrite cos_0, sin_0.
  assert (Hspeed : sqrt (50 * (50 * 1) + 0 * (0 * 1)) = 50).
  { replace (50 * (50 * 1) + 0 * (0 * 1)) with (50 * 50) by ring.
    apply sqrt_square. lra. }
  rewrite Hspeed.
  destruct (Rgt_dec 50 1e-6) as [_ | Hno]; [ | lra ].
  assert (Hangle : Np.arctan2 0 50 = 0).
  { unfold Np.arctan2. destruct (Rlt_dec 0 50) as [_ | Hno]; [ | lra ].
    replace (0 / 50) with 0 by lra. apply atan_0. }
  rewrite Hangle. replace (0 - 0) with 0 by ring. rewrite sin_0, cos_0.
  assert (Hwrap : Np.arctan2 0 1 = 0).
  { unfold Np.arctan2. destruct (Rlt_dec 0 1) as [_ | Hno]; [ | lra ].
    replace (0 / 1) with 0 by lra. apply atan_0. }
  rewrite Hwrap.
  apply f_equal. entrywise; lra.
Qed.

End Derivatives.

(** ** math/RK4.py *)

Section RungeKutta.

Local Open Scope R_scope.

Lemma zip_with_length (f : R -> R -> R) (a b : list R) :
  List.length a = List.length b -> List.length (Np.zip_with f a b) = List.length a.
Proof.
  revert b. induction a as [ | x a IH]; intros [ | y b] H; simpl in *; try congruence.
  f_equal. apply IH. congruence.
Qed.

Lemma vsum_shape (n : nat) (a b : Np.ndarray) :
  List.length a = n -> List.length b = n -> List.length (vsum a b) = n.
Proof. intros Ha Hb. unfold vsum. rewrite zip_with_length; congruence. Qed.

Lemma scale_shape (n : nat) (c : R) (a : Np.ndarray) :
  List.length a = n -> List.length (Np.scale c a) = n.
Proof. intros Ha. unfold Np.scale. now rewrite length_map. Qed.

(** The sum of two arrays of one shape does not raise. *)
Lemma add_shapes (n : nat) (a b : Np.ndarray) :
  List.length a = n -> List.length b = n -> Np.add a b = Returns (vsum a b).
Proof. intros Ha Hb. unfold Np.add. now rewrite Ha, Hb, Nat.eqb_refl. Qed.

End RungeKutta.

Create HintDb shapes.
#[global] Hint Resolve vsum_shape scale_shape eq_refl : shapes.

Section RungeKuttaStep.

Local Open Scope R_scope.

Lemma rk4_step_expanded (n : nat) (f : Np.ndarray -> R -> outcome Np.ndarray)
    (s : Np.ndarray) (dt t : R) :
  shape_preserving n f -> List.length s = n ->
  exists k1 k2 k3 k4 : Np.ndarray,
    (List.length k1 = n /\ List.length k2 = n /\ List.length k3 = n /\ List.length k4 = n) /\
    f s t = Returns k1 /\
    f (vsum s (Np.scale (dt / 2) k1)) (t + dt / 2) = Returns k2 /\
    f (vsum s (Np.scale (dt / 2) k2)) (t + dt / 2) = Returns k3 /\
    f (vsum s (Np.scale dt k3)) (t + dt) = Returns k4 /\
    RK4.rk4_step f s dt t =
    Returns (vsum s (Np.scale (dt / 6)
                       (vsum (vsum (vsum k1 (Np.scale 2 k2)) (Np.scale 2 k3)) k4))).
Proof.
  intros Hf Hs. unfold RK4.rk4_step.
  destruct (Hf s t Hs) as (k1 & E1 & L1).
  destruct (Hf (vsum s (Np.scale (dt / 2) k1)) (t + dt / 2)) as (k2 & E2 & L2);
    [ auto with shapes | ].
  destruct (Hf (vsum s (Np.scale (dt / 2) k2)) (t + dt / 2)) as (k3 & E3 & L3);
    [ auto with shapes | ].
  destruct (Hf (vsum s (Np.scale dt k3)) (t + dt)) as (k4 & E4 & L4);
    [ auto with shapes | ].
  exists k1, k2, k3, k4. repeat split; try assumption.
  rewrite E1. simpl.
  rewrite (add_shapes n) by auto with shapes. simpl.
  rewrite E2. simpl.
  rewrite (add_shapes n) by auto with shapes. simpl.
  rewrite E3. simpl.
  rewrite (add_shapes n) by auto with shapes. simpl.
  rewrite E4. simpl.
  rewrite (add_shapes n k1) by auto with shapes. simpl.
  rewrite (add_shapes n (vsum k1 _)) by auto with shapes. simpl.
  rewrite (add_shapes n (vsum (vsum k1 _) _)) by auto with shapes. simpl.
  rewrite (add_shapes n) by auto 6 with shapes.
  reflexivity.
Qed.

(** The step keeps the shape of the state. *)
Lemma rk4_step_shape (n : nat) (f : Np.ndarray -> R -> outcome Np.ndarray)
    (s : Np.ndarray) (dt t : R) :
  shape_preserving n f -> List.length s = n ->
  exists s', RK4.rk4_step f s dt t = Returns s' /\ List.length s' = n.
Proof.
  intros Hf Hs.
  destruct (rk4_step_expanded n f s dt t Hf Hs)
    as (k1 & k2 & k3 & k4 & (L1 & L2 & L3 & L4) & _ & _ & _ & _ & E).
  eexists. split; [ exact E | auto 8 with shapes ].
Qed.



(** One step of size 1 on [state' = state] from 1 gives 65/24, the Taylor
    polynomial of degree four of the exponential at 1. *)
Example rk4_step_exponential :
  RK4.rk4_step (fun a _ => Returns a) [1] 1 0 = Returns [65 / 24].
Proof.
  unfold RK4.rk4_step, Np.add, Np.scale. simpl.
  apply f_equal. apply (f_equal2 cons); [ lra | reflexivity ].
Qed.

(** Arrays of different shapes, none of length one, cannot be added: a
    derivative of another shape than the state makes the step raise. *)
Example rk4_step_shape_mismatch :
  RK4.rk4_step (fun _ _ => Returns [0; 0]) [1; 2; 3] 1 0 = Raises.
Proof. reflexivity. Qed.

(** Without a condition on the shapes: the step returns exactly when the four
    derivatives and the seven sums do, numpy's sum being the partial one. *)
Lemma rk4_step_returns (f : Np.ndarray -> R -> outcome Np.ndarray)
    (s : Np.ndarray) (dt t : R) (result : Np.ndarray) :
  RK4.rk4_step f s dt t = Returns result <->
  exists k1 k2 k3 k4 s1 s2 s3 a b c : Np.ndarray,
    f s t = Returns k1 /\
    Np.add s (Np.scale (dt / 2) k1) = Returns s1 /\
    f s1 (t + dt / 2) = Returns k2 /\
    Np.add s (Np.scale (dt / 2) k2) = Returns s2 /\
    f s2 (t + dt / 2) = Returns k3 /\
    Np.add s (Np.scale dt k3) = Returns s3 /\
    f s3 (t + dt) = Returns k4 /\
    Np.add k1 (Np.scale 2 k2) = Returns a /\
    Np.add a (Np.scale 2 k3) = Returns b /\
    Np.add b k4 = Returns c /\
    Np.add s (Np.scale (dt / 6) c) = Returns result.
Proof.
  unfold RK4.rk4_step. split.
  - intros H.
    destruct (f s t) as [k1 | ] eqn:E1; [ simpl in H | discriminate ].
    destruct (Np.add s (Np.scale (dt / 2) k1)) as [s1 | ] eqn:A1; [ simpl in H | discriminate ].
    destruct (f s1 (t + dt / 2)) as [k2 | ] eqn:E2; [ simpl in H | discriminate ].
    destruct (Np.add s (Np.scale (dt / 2) k2)) as [s2 | ] eqn:A2; [ simpl in H | discriminate ].
    destruct (f s2 (t + dt / 2)) as [k3 | ] eqn:E3; [ simpl in H | discriminate ].
    destruct (Np.add s (Np.scale dt k3)) as [s3 | ] eqn:A3; [ simpl in H | discriminate ].
    destruct (f s3 (t + dt)) as [k4 | ] eqn:E4; [ simpl in H | discriminate ].
    destruct (Np.add k1 (Np.scale 2 k2)) as [a | ] eqn:Aa; [ simpl in H | discriminate ].
    destruct (Np.add a (Np.scale 2 k3)) as [b | ] eqn:Ab; [ simpl in H | discriminate ].
    destruct (Np.add b k4) as [c | ] eqn:Ac; [ simpl in H | discriminate ].
    exists k1, k2, k3, k4, s1, s2, s3, a, b, c. repeat split; try assumption; reflexivity.
  - intros (k1 & k2 & k3 & k4 & s1 & s2 & s3 & a & b & c &
            E1 & A1 & E2 & A2 & E3 & A3 & E4 & Aa & Ab & Ac & Ar).
    rewrite E1. simpl. rewrite A1. simpl. rewrite E2. simpl. rewrite A2. simpl.
    rewrite E3. simpl. rewrite A3. simpl. rewrite E4. simpl. rewrite Aa. simpl.
    rewrite Ab. simpl. rewrite Ac. simpl. exact Ar.
Qed.

(** A derivative of length one is broadcast. *)
Example rk4_step_broadcast :
  RK4.rk4_step (fun _ _ => Returns [6]) [1; 2; 3] 1 0 = Returns [7; 8; 9].
Proof.
  unfold RK4.rk4_step, Np.add, Np.scale. simpl.
  apply f_equal. repeat (apply (f_equal2 cons)); try reflexivity; lra.
Qed.

End RungeKuttaStep.

(** ** math/trajectory_prediction.py *)

Section Predictor.

Import TrajectoryPredictor.

Local Open Scope R_scope.

(** A state of nine entries has a derivative, of nine entries. *)
Lemma calculate_derivatives_shape :
  shape_preserving 9 FlightEquations.calculate_derivatives.
Proof.
  intros a u Ha.
  do 9 (destruct a as [ | ? a]; [ discriminate | ]).
  destruct a; [ | discriminate ].
  unfold FlightEquations.calculate_derivatives. eexists. split; reflexivity.
Qed.

Lemma grows_refl (h : heap) : grows h h.
Proof. exists []. now rewrite app_nil_r. Qed.

Lemma grows_trans (h1 h2 h3 : heap) : grows h1 h2 -> grows h2 h3 -> grows h1 h3.
Proof. intros [k1 ->] [k2 ->]. exists (k1 ++ k2). now rewrite app_assoc. Qed.

Lemma grows_lookup (h h' : heap) (r : ref) (a : Np.ndarray) :
  grows h h' -> nth_error h r = Some a -> nth_error h' r = Some a.
Proof.
  intros [k ->] H. rewrite nth_error_app1; [ exact H | ].
  apply nth_error_Some. congruence.
Qed.

Lemma lookup_new (h : heap) (a : Np.ndarray) :
  nth_error (h ++ [a]) (List.length h) = Some a.
Proof. rewrite nth_error_app2 by lia. now rewrite Nat.sub_diag. Qed.

(** An assignment into one array leaves the others as they are. *)
Lemma assign_other (p r : ref) (a : Np.ndarray) (h : heap) :
  p <> r -> nth_error (assign p a h) r = nth_error h r.
Proof.
  revert p r. induction h as [ | b h IH]; intros p r Hne.
  - now destruct p.
  - destruct p as [ | p], r as [ | r]; simpl; try reflexivity; try congruence.
    apply IH. congruence.
Qed.

Lemma np_copy_run (r : ref) (h : heap) :
  np_copy r h =
  match nth_error h r with
  | Some a => (Returns (List.length h), h ++ [a])
  | None => (Raises, h)
  end.
Proof. unfold np_copy, sbind, contents, new_array. now destruct (nth_error h r). Qed.

Lemma call_rk4_step_run (state : ref) (dt t : R) (h : heap) :
  call_rk4_step state dt t h =
  match nth_error h state with
  | Some a =>
      match RK4.rk4_step FlightEquations.calculate_derivatives a dt t with
      | Returns a' => (Returns (List.length h), h ++ [a'])
      | Raises => (Raises, h)
      end
  | None => (Raises, h)
  end.
Proof.
  unfold call_rk4_step, sbind, contents, new_array, raise.
  destruct (nth_error h state) as [a | ]; [ | reflexivity ].
  now destruct (RK4.rk4_step _ a dt t).
Qed.

(** From a state of nine entries the loop runs to its end and appends one
    point per step. *)
Lemma predict_loop_returns (dt : R) (steps : nat) :
  forall (state : ref) (t : R) (trajectory : list ref) (h : heap) (a : Np.ndarray),
    nth_error h state = Some a -> List.length a = 9%nat ->
    exists new h',
      predict_loop dt steps state t trajectory h = (Returns (trajectory ++ new), h') /\
      List.length new = steps.
Proof.
  induction steps as [ | steps IH]; intros state t trajectory h a Hstate Ha.
  - exists [], h. now rewrite app_nil_r.
  - simpl. unfold sbind at 1. rewrite call_rk4_step_run, Hstate.
    destruct (rk4_step_shape 9 _ a dt t calculate_derivatives_shape Ha) as (a' & -> & Ha').
    unfold sbind at 1. rewrite np_copy_run, lookup_new.
    destruct (IH (List.length h) (t + dt) (trajectory ++ [List.length (h ++ [a'])])
                 ((h ++ [a']) ++ [a']) a') as (new & h' & E & Hnew).
    + apply grows_lookup with (h := h ++ [a']); [ now exists [a'] | apply lookup_new ].
    + exact Ha'.
    + exists (List.length (h ++ [a']) :: new), h'. split.
      * rewrite <- (app_assoc trajectory) in E. exact E.
      * simpl. now rewrite Hnew.
Qed.

(** Whatever its outcome, the loop only creates arrays, and the points it
    appends are among the arrays it created. *)
Lemma predict_loop_frame (dt : R) (steps : nat) :
  forall (state : ref) (t : R) (trajectory : list ref) (h : heap),
    grows h (snd (predict_loop dt steps state t trajectory h)) /\
    forall result,
      fst (predict_loop dt steps state t trajectory h) = Returns result ->
      exists new, result = trajectory ++ new /\
                  Forall (fun p => List.length h <= p)%nat new.
Proof.
  induction steps as [ | steps IH]; intros state t trajectory h.
  - simpl. split; [ apply grows_refl | ].
    intros result [= <-]. exists []. now rewrite app_nil_r.
  - simpl. unfold sbind at 1 3. rewrite call_rk4_step_run.
    destruct (nth_error h state) as [a | ]; [ | split; [ apply grows_refl | discriminate ] ].
    destruct (RK4.rk4_step _ a dt t) as [a' | ];
      [ | split; [ apply grows_refl | discriminate ] ].
    unfold sbind at 1 2. rewrite np_copy_run, lookup_new.
    destruct (IH (List.length h) (t + dt) (trajectory ++ [List.length (h ++ [a'])])
                 ((h ++ [a']) ++ [a'])) as [Hgrows Hresult].
    split.
    + apply grows_trans with (h2 := (h ++ [a']) ++ [a']); [ | exact Hgrows ].
      exists [a'; a']. now rewrite <- app_assoc.
    + intros result E. destruct (Hresult result E) as (new & -> & Hnew).
      exists (List.length (h ++ [a']) :: new).
      split; [ now rewrite <- (app_assoc trajectory) | ].
      constructor.
      * rewrite length_app. lia.
      * eapply Forall_impl; [ | exact Hnew ]. intros p. rewrite !length_app. simpl. lia.
Qed.

(** The number of steps, when the step is not zero, is the truncated
    quotient. *)
Lemma steps_quotient (dt prediction_time : float) :
  (dt =? 0)%float = false ->
  steps dt prediction_time = Py.int_of_float (prediction_time / dt)%float.
Proof. intros H. unfold steps, Py.truediv. now rewrite H. Qed.

(** The loop makes a step only for a finite [dt]: a step that is zero or NaN
    makes the call raise, an infinite one gives no step. *)
Lemma steps_finite_step (dt prediction_time : float) (n : Z) :
  steps dt prediction_time = Returns n ->
  (1 <= n)%Z ->
  exists (s : bool) (m : positive) (e : Z), Prim2SF dt = S754_finite s m e.
Proof.
  unfold steps, Py.truediv. rewrite FloatAxioms.eqb_spec.
  change (Prim2SF 0%float) with (S754_zero false).
  destruct (Prim2SF dt) as [s | s | | s m e] eqn:Hdt.
  - discriminate.
  - replace (SFeqb (S754_infinity s) (S754_zero false)) with false by now destruct s.
    cbn [bind]. unfold Py.int_of_float. rewrite FloatAxioms.div_spec, Hdt.
    destruct (Prim2SF prediction_time) as [s' | s' | | s' m' e']; simpl;
      try discriminate; intros [= <-]; lia.
  - cbn [SFeqb SFcompare bind]. unfold Py.int_of_float. rewrite FloatAxioms.div_spec, Hdt.
    destruct (Prim2SF prediction_time) as [s' | s' | | s' m' e']; discriminate.
  - intros _ _. now exists s, m, e.
Qed.

Lemma predict_trajectory_run
    (h : heap) (initial_state : ref) (s0 : Np.ndarray) (dt prediction_time : float) :
  nth_error h initial_state = Some s0 ->
  predict_trajectory initial_state dt prediction_time h =
  match steps dt prediction_time with
  | Returns n =>
      predict_loop (real_of_float dt) (Z.to_nat n)
        (List.length (h ++ [s0])) 0 [List.length h] ((h ++ [s0]) ++ [s0])
  | Raises => (Raises, h)
  end.
Proof.
  intros Hs0. unfold predict_trajectory, of_outcome. unfold sbind at 1.
  destruct (steps dt prediction_time) as [n | ]; [ | reflexivity ].
  unfold sbind. rewrite np_copy_run, Hs0, np_copy_run.
  now rewrite (grows_lookup h (h ++ [s0]) initial_state s0) by (try exists [s0]; auto).
Qed.

Lemma first_copy_kept (h h' : heap) (s0 : Np.ndarray) :
  grows ((h ++ [s0]) ++ [s0]) h' ->
  grows h h' /\ nth_error h' (List.length h) = Some s0.
Proof.
  intros Hgrows. split.
  - apply grows_trans with (h2 := (h ++ [s0]) ++ [s0]); [ | exact Hgrows ].
    exists [s0; s0]. now rewrite <- app_assoc.
  - apply (grows_lookup ((h ++ [s0]) ++ [s0])); [ exact Hgrows | ].
    apply (grows_lookup (h ++ [s0])); [ now exists [s0] | apply lookup_new ].
Qed.

(** C2, as amended. For a state of nine entries, a step [dt > 0] and a
    horizon [prediction_time > 0] whose quotient, rounded to binary64 as
    line 28 computes it, is finite, [predict_trajectory] returns a list of
    [n + 1] points, [n] being the integer part of that quotient (its floor:
    it is not negative), and the point at index 0 holds the values of the
    initial state. *)
Theorem predict_trajectory_length_and_start
    (h : heap) (initial_state : ref) (s0 : Np.ndarray) (dt prediction_time : float)
    (n : Z) :
  nth_error h initial_state = Some s0 ->
  List.length s0 = 9%nat ->
  (0 <? dt)%float = true ->
  (0 <? prediction_time)%float = true ->
  Py.int_of_float (prediction_time / dt)%float = Returns n ->
  (0 <= n)%Z /\
  exists (trajectory : list ref) (h' : heap),
    predict_trajectory initial_state dt prediction_time h = (Returns trajectory, h') /\
    Z.of_nat (List.length trajectory) = (n + 1)%Z /\
    exists first : ref,
      nth_error trajectory 0 = Some first /\ nth_error h' first = Some s0.
Proof.
  intros Hs0 Hshape Hdt HT Hn.
  assert (Hpos : (0 <= n)%Z) by exact (quotient_not_negative _ _ n Hdt HT Hn).
  split; [ exact Hpos | ].
  rewrite (predict_trajectory_run h initial_state s0) by exact Hs0.
  rewrite steps_quotient, Hn by now apply positive_not_zero.
  destruct (predict_loop_returns (real_of_float dt) (Z.to_nat n)
              (List.length (h ++ [s0])) 0 [List.length h] ((h ++ [s0]) ++ [s0]) s0)
    as (new & h' & E & Hnew); [ apply lookup_new | exact Hshape | ].
  exists ([List.length h] ++ new), h'. split; [ exact E | ]. split.
  - simpl. rewrite Hnew. lia.
  - exists (List.length h). split; [ reflexivity | ].
    pose proof (predict_loop_frame (real_of_float dt) (Z.to_nat n)
                  (List.length (h ++ [s0])) 0 [List.length h] ((h ++ [s0]) ++ [s0]))
      as [Hgrows _].
    rewrite E in Hgrows. now apply first_copy_kept in Hgrows.
Qed.

(** The scenario of the specification: level flight, a step of 0.1 and a
    horizon of 1.0, eleven points. *)
Lemma predict_trajectory_length_and_start_witness :
  (0 <= 10)%Z /\
  exists (trajectory : list ref) (h' : heap),
    predict_trajectory 0%nat 0.1%float 1.0%float [Samples.level_flight]
    = (Returns trajectory, h') /\
    Z.of_nat (List.length trajectory) = (10 + 1)%Z /\
    exists first : ref,
      nth_error trajectory 0 = Some first /\
      nth_error h' first = Some Samples.level_flight.
Proof.
  apply (predict_trajectory_length_and_start
           [Samples.level_flight] 0%nat Samples.level_flight 0.1%float 1.0%float 10);
    reflexivity.
Defined.

(** C2 as the specification states it, for every [dt > 0] and every
    [prediction_time > 0], fails: the quotient of 1e308 by 1e-308 is
    infinite, [int] raises [OverflowError] on it, and the call returns no
    list. Nothing was copied by then. *)
Lemma predict_trajectory_overflow :
  (0 <? 1e-308)%float = true /\
  (0 <? 1e308)%float = true /\
  (1e308 / 1e-308)%float = infinity /\
  predict_trajectory 0%nat 1e-308%float 1e308%float [Samples.level_flight]
  = (Raises, [Samples.level_flight]).
Proof. repeat split; reflexivity. Qed.

(** The numbers of steps of the scenario, of the call of [math/test.py]
    (6001 points) and of a horizon that is no multiple of the step. *)
Example scenario_steps :
  steps 0.1%float 1.0%float = Returns 10%Z /\
  steps Test.dt Test.prediction_time = Returns 6000%Z /\
  steps 0.1%float 0.25%float = Returns 2%Z.
Proof. repeat split; reflexivity. Qed.

(** The quotient truncated is the rounded one. The binary64 number 0.1 is
    7205759403792794 / 2 ^ 56, above one tenth, so that the exact quotient
    of 1.0 by it is below ten; rounded, it is ten. *)
Example rounded_quotient_steps :
  Prim2SF 0.1%float = S754_finite false 7205759403792794 (-56) /\
  (2 ^ 56 < 10 * 7205759403792794)%Z /\
  (1.0 / 0.1)%float = 10%float /\
  steps 0.1%float 1.0%float = Returns 10%Z.
Proof. repeat split; reflexivity. Qed.

(** C9. [predict_trajectory] does not change its argument, nor any array
    that exists when it is called, whether it returns or raises; the point at
    index 0 of the trajectory is another array than the argument, with the
    same values; and no returned point is the argument, so that an assignment
    into a returned point leaves the argument as it is. *)
Theorem predict_trajectory_keeps_argument
    (h : heap) (initial_state : ref) (s0 : Np.ndarray) (dt prediction_time : float) :
  nth_error h initial_state = Some s0 ->
  let out := predict_trajectory initial_state dt prediction_time h in
  nth_error (snd out) initial_state = Some s0 /\
  (forall (r : ref) (a : Np.ndarray),
      nth_error h r = Some a -> nth_error (snd out) r = Some a) /\
  (forall trajectory : list ref,
      fst out = Returns trajectory ->
      (exists first : ref,
          nth_error trajectory 0 = Some first /\
          first <> initial_state /\
          nth_error (snd out) first = Some s0) /\
      (forall (point : ref) (a : Np.ndarray),
          In point trajectory ->
          point <> initial_state /\
          nth_error (assign point a (snd out)) initial_state = Some s0)).
Proof.
  intros Hs0 out.
  assert (Hvalid : (initial_state < List.length h)%nat)
    by (apply nth_error_Some; congruence).
  assert (Hout : grows h (snd out) /\
                 forall trajectory, fst out = Returns trajectory ->
                   exists new, trajectory = List.length h :: new /\
                               Forall (fun p => List.length h <= p)%nat new /\
                               nth_error (snd out) (List.length h) = Some s0).
  { subst out. rewrite (predict_trajectory_run h initial_state s0) by exact Hs0.
    destruct (steps dt prediction_time) as [n | ];
      [ | split; [ apply grows_refl | discriminate ] ].
    destruct (predict_loop_frame (real_of_float dt) (Z.to_nat n)
                (List.length (h ++ [s0])) 0 [List.length h] ((h ++ [s0]) ++ [s0]))
      as [Hgrows Hresult].
    apply first_copy_kept in Hgrows. destruct Hgrows as [Hgrows Hfirst].
    split; [ exact Hgrows | ].
    intros trajectory E. destruct (Hresult trajectory E) as (new & -> & Hnew).
    exists new. split; [ reflexivity | ]. split; [ | exact Hfirst ].
    eapply Forall_impl; [ | exact Hnew ]. intros p. rewrite !length_app. simpl. lia. }
  destruct Hout as [Hgrows Hresult].
  split; [ now apply (grows_lookup h) | ].
  split; [ intros r a; now apply grows_lookup | ].
  intros trajectory E. destruct (Hresult trajectory E) as (new & -> & Hnew & Hfirst).
  split.
  - exists (List.length h). split; [ reflexivity | ]. split; [ lia | exact Hfirst ].
  - intros point a Hin.
    assert (Hfresh : (List.length h <= point)%nat).
    { destruct Hin as [<- | Hin]; [ lia | ].
      rewrite Forall_forall in Hnew. now apply Hnew. }
    split; [ lia | ].
    rewrite assign_other by lia. now apply (grows_lookup h).
Qed.

Lemma predict_trajectory_keeps_argument_witness :
  let out := predict_trajectory 0%nat 0.1%float 1.0%float [Samples.level_flight] in
  nth_error (snd out) 0%nat = Some Samples.level_flight /\
  (forall (r : ref) (a : Np.ndarray),
      nth_error [Samples.level_flight] r = Some a -> nth_error (snd out) r = Some a) /\
  (forall trajectory : list ref,
      fst out = Returns trajectory ->
      (exists first : ref,
          nth_error trajectory 0 = Some first /\
          first <> 0%nat /\
          nth_error (snd out) first = Some Samples.level_flight) /\
      (forall (point : ref) (a : Np.ndarray),
          In point trajectory ->
          point <> 0%nat /\
          nth_error (assign point a (snd out)) 0%nat = Some Samples.level_flight)).
Proof.
  apply (predict_trajectory_keeps_argument
           [Samples.level_flight] 0%nat Samples.level_flight 0.1%float 1.0%float).
  reflexivity.
Defined.

(** An assignment does change the array it is made into: the frame property
    above is about the other arrays. *)
Example assign_changes_target :
  nth_error (assign 1%nat [7] [[1]; [2]; [3]]) 1%nat = Some [7] /\
  nth_error (assign 1%nat [7] [[1]; [2]; [3]]) 0%nat = Some [1].
Proof. split; reflexivity. Qed.

End Predictor.

(** ** math/test.py *)

Section Scan.

Import Test.

Local Open Scope float_scope.

#[local] Arguments tbind : simpl never.

(** X22. Every warning printed by the scan carries the index of a scanned
    point multiplied by the constant 0.1, whatever the checker and the
    levels. *)
Lemma scan_warning_times
    (check_collision : list float -> outcome (bool * float))
    (get_collision_warning_level : float -> Z)
    (trajectory : list (list float)) :
  forall (i : nat) (warning_level : Z) (time distance : float),
    In (Warning warning_level time distance)
       (fst (scan check_collision get_collision_warning_level i trajectory)) ->
    exists (k : nat) (index : float),
      (i <= k < i + List.length trajectory)%nat /\
      Py.float_of_int (Z.of_nat k) = Returns index /\
      time = index * 0.1.
Proof.
  induction trajectory as [ | point rest IH]; intros i warning_level time distance Hin.
  - contradiction.
  - simpl in Hin. rewrite tbind_log in Hin. simpl in Hin.
    destruct (check_collision point) as [[has_collision d] | ]; simpl in Hin; [ | contradiction ].
    rewrite tbind_log in Hin. apply in_app_or in Hin. destruct Hin as [Hin | Hin].
    + destruct (0 <? get_collision_warning_level d)%Z; [ | contradiction ].
      rewrite tbind_log in Hin. simpl in Hin.
      destruct (Py.float_of_int (Z.of_nat i)) as [index | ] eqn:Hindex;
        simpl in Hin; [ | contradiction ].
      destruct Hin as [[= <- <- <-] | []].
      exists i, index. simpl. repeat split; try lia. exact Hindex.
    + destruct (0 <? get_collision_warning_level d)%Z.
      * rewrite tbind_result in Hin. simpl in Hin.
        destruct (Py.float_of_int (Z.of_nat i)); simpl in Hin; [ | contradiction ].
        destruct has_collision; simpl in Hin.
        -- destruct Hin as [Hin | []]. discriminate.
        -- destruct (IH (S i) _ _ _ Hin) as (k & index & Hk & Hindex & Htime).
           exists k, index. simpl. repeat split; try lia; assumption.
      * simpl in Hin. destruct has_collision; simpl in Hin.
        -- destruct Hin as [Hin | []]. discriminate.
        -- destruct (IH (S i) _ _ _ Hin) as (k & index & Hk & Hindex & Htime).
           exists k, index. simpl. repeat split; try lia; assumption.
Qed.

Lemma scan_warning_times_witness :
  exists (k : nat) (index : float),
    (0 <= k < 0 + List.length [[0]; [0]])%nat /\
    Py.float_of_int (Z.of_nat k) = Returns index /\
    0.1 = index * 0.1.
Proof.
  apply (scan_warning_times (fun _ => Returns (false, 100))
           TerrainChecker.get_collision_warning_level [[0]; [0]] 0 3 0.1 100).
  vm_compute. right. left. reflexivity.
Defined.

(** C8 (the program departs from it). A predictor that answers with two
    points, each holding the step it was given, and a checker that finds the
    ground 100 m below every point: [predict_from_point] passes the step 0.01
    and prints, for the point at index 1, the time 0.1, not the elapsed time
    1 * 0.01 of that point. *)
Theorem warning_time_ignores_step :
  let predictor := fun (_ : list float) (dt _ : float) => Returns [[dt]; [dt]] in
  let checker := fun _ : list float => Returns (false, 100) in
  let nav_data := [[0; 0; 90; 50; 0; 0; 55.75; 37.62; 1000]] in
  predict_from_point predictor checker TerrainChecker.get_collision_warning_level
    (fun x => x * 0.017453292519943295) nav_data 0
  = ([Warning 3 0 100; Warning 3 0.1 100], Returns [[0.01]; [0.01]]) /\
  (1 * dt <? 0.1) = true.
Proof. vm_compute. split; reflexivity. Qed.

End Scan.

(** * Part IV: further properties of the sources *)

(** ** terrain_checker.py: what [check_collision] answers *)

Section TerrainExtras.

Import TerrainChecker.

Local Open Scope float_scope.

(** A clearance below zero has the level 3. *)
Lemma negative_clearance_high (d : float) :
  (d <? 0) = true -> get_collision_warning_level d = 3%Z.
Proof.
  intros H. unfold get_collision_warning_level.
  replace (Py.gt d 1000) with false by (symmetry; float_order).
  replace (Py.gt d 500) with false by (symmetry; float_order).
  replace (Py.gt d 200) with false by (symmetry; float_order).
  reflexivity.
Qed.

(** The shape of every result of [check_collision]. *)
Lemma check_collision_result (env : environment) (point : list float)
    (has_collision : bool) (distance : float) :
  check_collision env point = Returns (has_collision, distance) ->
  has_collision = (distance <? 0).
Proof.
  unfold check_collision.
  destruct point as [ | lat [ | lon [ | alt rest]]]; simpl; try discriminate.
  destruct (in_coverage (np_degrees env lat) (np_degrees env lon)); simpl.
  - destruct (get_elevation env (np_degrees env lat) (np_degrees env lon)).
    + now intros [= <- <-].
    + now intros [= <- <-].
  - now intros [= <- <-].
Qed.

(** X2. Whatever [check_collision] returns, the collision flag is the
    comparison [distance < 0] of the distance returned with it (so a NaN
    distance gives no collision), and a collision always comes with a
    distance of the highest warning level, 3. *)
Theorem collision_means_high_warning (env : environment) (point : list float)
    (has_collision : bool) (distance : float) :
  check_collision env point = Returns (has_collision, distance) ->
  has_collision = (distance <? 0) /\
  (has_collision = true -> get_collision_warning_level distance = 3%Z).
Proof.
  intros H. pose proof (check_collision_result env point _ _ H) as Hflag.
  split; [ exact Hflag | ].
  intros ->. now apply negative_clearance_high.
Qed.

Lemma collision_means_high_warning_witness :
  true = (-55051 <? 0) /\
  (true = true -> get_collision_warning_level (-55051) = 3%Z).
Proof.
  apply (collision_means_high_warning Samples.blob_first [0.9730; 0.6566; 1000]).
  vm_compute. reflexivity.
Defined.

(** X3. [check_collision] raises exactly for a point of fewer than three
    entries, where an index of lines 143-145 is out of range: the failures
    of the tile lookup never reach its caller. *)
Theorem check_collision_raises_iff_short (env : environment) (point : list float) :
  check_collision env point = Raises <-> (List.length point < 3)%nat.
Proof.
  unfold check_collision.
  destruct point as [ | lat [ | lon [ | alt rest]]]; simpl; try (split; [ lia | reflexivity ]).
  split; [ | lia ].
  destruct (in_coverage (np_degrees env lat) (np_degrees env lon)); simpl; try discriminate.
  destruct (get_elevation env (np_degrees env lat) (np_degrees env lon)); discriminate.
Qed.

End TerrainExtras.

(** ** terrain_checker.py: the columns named after tiles *)

Section Names.

Import TerrainChecker.

Local Open Scope string_scope.

Lemma prefix_app (a b : string) :
  String.prefix a b = true <-> exists post, b = a ++ post.
Proof.
  revert b. induction a as [ | c a IH]; intros b.
  - split; [ intros _; now exists b | intros _; now destruct b ].
  - destruct b as [ | d b]; simpl;
      [ split; [ discriminate | intros [post H]; discriminate ] | ].
    destruct (Ascii.ascii_dec c d) as [-> | Hne].
    + rewrite IH. split; intros [post H]; exists post; [ now rewrite H | now injection H ].
    + split; [ discriminate | intros [post H]; injection H as H1 H2; congruence ].
Qed.

Lemma contains_app (needle hay : string) :
  Py.contains needle hay = true <-> exists pre post, hay = pre ++ needle ++ post.
Proof.
  induction hay as [ | c hay IH].
  - change (Py.contains needle "") with (String.prefix needle "" || false)%bool.
    rewrite orb_false_r, prefix_app. split.
    + intros [post H]. now exists "", post.
    + intros [pre [post H]]. destruct pre; [ now exists post | discriminate ].
  - change (Py.contains needle (String c hay))
      with (String.prefix needle (String c hay) || Py.contains needle hay)%bool.
    rewrite orb_true_iff, IH, prefix_app. split.
    + intros [[post H] | [pre [post H]]].
      * now exists "", post.
      * exists (String c pre), post. simpl. now rewrite H.
    + intros [[ | d pre] [post H]].
      * left. now exists post.
      * right. injection H as _ H. now exists pre, post.
Qed.

Lemma lower_app (a b : string) : Py.lower (a ++ b) = Py.lower a ++ Py.lower b.
Proof. induction a as [ | c a IH]; simpl; [ reflexivity | now rewrite IH ]. Qed.

Lemma lower_split (s a' b' : string) :
  Py.lower s = a' ++ b' ->
  exists a b, s = a ++ b /\ Py.lower a = a' /\ Py.lower b = b'.
Proof.
  revert s. induction a' as [ | c a' IH]; intros s H; simpl in H.
  - now exists "", s.
  - destruct s as [ | d s]; [ discriminate | ]. simpl in H. injection H as Hc H.
    destruct (IH s H) as (a & b & -> & Ha & Hb).
    exists (String d a), b. simpl. now rewrite Hc, Ha.
Qed.

(** X4. The test ['tile' in col.lower()]: a column passes it exactly when
    its name contains the letters of [tile] next to each other, each in
    either case. *)
Theorem is_tile_column_any_case (col : string) :
  is_tile_column col = true <->
  exists pre word post, col = pre ++ word ++ post /\ Py.lower word = "tile".
Proof.
  unfold is_tile_column. rewrite contains_app. split.
  - intros (pre' & post' & H).
    destruct (lower_split _ _ _ H) as (pre & rest & -> & _ & Hrest).
    destruct (lower_split _ _ _ Hrest) as (word & post & -> & Hword & _).
    now exists pre, word, post.
  - intros (pre & word & post & -> & Hword).
    exists (Py.lower pre), (Py.lower post). now rewrite !lower_app, Hword.
Qed.

Example tile_columns :
  map is_tile_column ["tile_data"; "TILE_ROW"; "Tile_Column"; "zoom_level"; "tiling"; "reptile"]
  = [true; true; true; false; false; true].
Proof. reflexivity. Qed.

(** X5. The index computed by [next(...)] at line 85 is the position of the
    first column that passes the test, every column before it failing it;
    the generator is exhausted, and the call raises, exactly when no column
    passes. *)
Theorem first_tile_index_first_match (columns : list string) :
  match first_tile_index columns with
  | Returns i =>
      (exists col, nth_error columns i = Some col /\ is_tile_column col = true) /\
      (forall j c, (j < i)%nat -> nth_error columns j = Some c -> is_tile_column c = false)
  | Raises => forall c, In c columns -> is_tile_column c = false
  end.
Proof.
  induction columns as [ | col rest IH]; simpl.
  - intros c [].
  - destruct (is_tile_column col) eqn:Hcol.
    + split; [ now exists col | intros j c Hj; lia ].
    + destruct (first_tile_index rest) as [i | ]; simpl.
      * destruct IH as [Hhit Hbefore]. split; [ exact Hhit | ].
        intros [ | j] c Hj Hc; simpl in Hc.
        -- now injection Hc as <-.
        -- apply (Hbefore j c); [ lia | exact Hc ].
      * intros c [<- | Hin]; [ exact Hcol | now apply IH ].
Qed.

End Names.

(** ** terrain_checker.py: the table and the row of a tile *)

Section TileTable.

Import TerrainChecker.

#[local] Arguments tbind : simpl never.

(** X6. The loop of lines 67-72 chooses the first table that has a tile
    column; it asks for the columns of the tables up to it, in order, and of
    no table after it. It answers with no table when every table was asked
    and has no tile column, and it raises at the first table whose columns
    cannot be read, the tables before it having no tile column. *)
Theorem find_tile_table_first_match (env : environment) (tables : list string) :
  match snd (find_tile_table env tables) with
  | Returns (Some table) =>
      exists before after columns,
        tables = before ++ table :: after /\
        Forall (passed_over env) before /\
        fetch_table_info env table = Returns columns /\
        existsb is_tile_column columns = true /\
        fst (find_tile_table env tables) = map QueryTableInfo (before ++ [table])
  | Returns None =>
      Forall (passed_over env) tables /\
      fst (find_tile_table env tables) = map QueryTableInfo tables
  | Raises =>
      exists before table after,
        tables = before ++ table :: after /\
        Forall (passed_over env) before /\
        fetch_table_info env table = Raises /\
        fst (find_tile_table env tables) = map QueryTableInfo (before ++ [table])
  end.
Proof.
  induction tables as [ | table rest IH]; simpl.
  - split; [ constructor | reflexivity ].
  - rewrite tbind_result, tbind_log. simpl.
    destruct (fetch_table_info env table) as [columns | ] eqn:Hinfo; simpl.
    + destruct (existsb is_tile_column columns) eqn:Htile; simpl.
      * exists [], rest, columns. repeat split; auto.
      * assert (Hpass : passed_over env table) by (exists columns; now split).
        destruct (snd (find_tile_table env rest)) as [[found | ] | ].
        -- destruct IH as (before & after & cols & -> & Hbefore & Hcols & Hfound & Hlog).
           exists (table :: before), after, cols. repeat split; auto.
           simpl. now rewrite Hlog.
        -- destruct IH as [Hall Hlog]. split; [ now constructor | now rewrite Hlog ].
        -- destruct IH as (before & failed & after & -> & Hbefore & Hfail & Hlog).
           exists (table :: before), failed, after. repeat split; auto.
           simpl. now rewrite Hlog.
    + exists [], table, rest. repeat split; auto.
Qed.

(** The result of [_get_tile_data], when it is not [None], is an entry of the
    row selected at the flipped address, the entry under the first tile
    column of the table chosen. *)
Lemma get_tile_data_provenance (env : environment) (x y z : Z) :
  snd (_get_tile_data env x y z) <> SqlNull ->
  exists tables table columns row i,
    fetch_tables env = Returns tables /\
    snd (find_tile_table env tables) = Returns (Some table) /\
    fetch_tile_row env table z x (2 ^ z - 1 - y) = Returns (Some row) /\
    fetch_table_info env table = Returns columns /\
    first_tile_index columns = Returns i /\
    nth_error row i = Some (snd (_get_tile_data env x y z)).
Proof.
  unfold _get_tile_data.
  destruct (_get_tile_data_try env x y z) as [log r] eqn:E.
  assert (Hr : r = snd (_get_tile_data_try env x y z)) by now rewrite E.
  clear E. unfold _get_tile_data_try in Hr.
  rewrite tbind_result in Hr. unfold Py.lshift in Hr. simpl in Hr.
  destruct (Z.ltb_spec z 0) as [Hz | Hz]; simpl in Hr; [ subst; simpl; congruence | ].
  rewrite Z.shiftl_1_l in Hr. rewrite tbind_result in Hr. simpl in Hr.
  destruct (fetch_tables env) as [tables | ]; simpl in Hr; [ | subst; simpl; congruence ].
  rewrite tbind_result in Hr.
  destruct (snd (find_tile_table env tables)) as [[[ | c name] | ] | ] eqn:Hfind;
    simpl in Hr; try (subst; simpl; congruence).
  rewrite tbind_result in Hr. simpl in Hr.
  destruct (fetch_tile_row env (String c name) z x (2 ^ z - 1 - y))
    as [[[ | v row] | ] | ] eqn:Hrow; simpl in Hr; try (subst; simpl; congruence).
  rewrite tbind_result in Hr. simpl in Hr.
  destruct (fetch_table_info env (String c name)) as [columns | ] eqn:Hinfo;
    simpl in Hr; [ | subst; simpl; congruence ].
  rewrite tbind_result in Hr. simpl in Hr.
  destruct (first_tile_index columns) as [i | ] eqn:Hindex;
    simpl in Hr; [ | subst; simpl; congruence ].
  unfold getitem in Hr.
  destruct (nth_error (v :: row) i) as [w | ] eqn:Hnth; subst r; simpl; [ | congruence ].
  intros _. exists tables, (String c name), columns, (v :: row), i. repeat split; auto.
Qed.

(** X7. Whatever [_get_tile_data] returns other than [None] is an entry of
    the row stored at the zoom, the column and the flipped row
    [2 ^ z - 1 - y], in a table of the database: the entry under the first
    column of that table whose name contains [tile]. *)
Theorem tile_data_comes_from_selected_row (env : environment) (x y z : Z) :
  snd (_get_tile_data env x y z) <> SqlNull ->
  exists table columns row i,
    fetch_tile_row env table z x (2 ^ z - 1 - y) = Returns (Some row) /\
    fetch_table_info env table = Returns columns /\
    first_tile_index columns = Returns i /\
    nth_error row i = Some (snd (_get_tile_data env x y z)).
Proof.
  intros H.
  destruct (get_tile_data_provenance env x y z H)
    as (tables & table & columns & row & i & _ & _ & Hrow & Hinfo & Hindex & Hnth).
  now exists table, columns, row, i.
Qed.

Lemma tile_data_comes_from_selected_row_witness :
  exists table columns row i,
    fetch_tile_row Samples.mbtiles table 14 9904 (2 ^ 14 - 1 - 5121) = Returns (Some row) /\
    fetch_table_info Samples.mbtiles table = Returns columns /\
    first_tile_index columns = Returns i /\
    nth_error row i = Some (snd (_get_tile_data Samples.mbtiles 9904 5121 14)).
Proof.
  apply (tile_data_comes_from_selected_row Samples.mbtiles 9904 5121 14).
  vm_compute. discriminate.
Defined.

(** X8. In a database none of whose rows holds bytes under the first tile
    column of its table (the standard mbtiles layout, whose first such
    column is [tile_column]), no elevation is ever found, and every point of
    three entries or more is reported without a collision, at an infinite
    distance. *)
Theorem elevation_unknown_without_image (env : environment) :
  no_image_under_first_tile_column env ->
  forall lat lon alt rest,
    get_elevation env (np_degrees env lat) (np_degrees env lon) = None /\
    check_collision env (lat :: lon :: alt :: rest) = Returns (false, infinity).
Proof.
  intros Hno lat lon alt rest.
  assert (Hnone : forall la lo, get_elevation env la lo = None).
  { intros la lo. unfold get_elevation, get_elevation_try, _get_tile_coords.
    destruct (mercantile_tile env lo la 14) as [[x y] | ]; simpl; [ | reflexivity ].
    destruct (snd (_get_tile_data env x y 14)) as [ | n | f | s | data ] eqn:Hdata;
      try reflexivity.
    exfalso.
    destruct (get_tile_data_provenance env x y 14)
      as (tables & table & columns & row & i & _ & _ & Hrow & Hinfo & Hindex & Hnth).
    - rewrite Hdata. discriminate.
    - rewrite Hdata in Hnth. exact (Hno _ _ _ _ _ _ _ _ Hrow Hinfo Hindex Hnth). }
  split; [ apply Hnone | ].
  unfold check_collision. simpl. rewrite Hnone.
  now destruct (in_coverage (np_degrees env lat) (np_degrees env lon)).
Qed.

Lemma mbtiles_no_image : no_image_under_first_tile_column Samples.mbtiles.
Proof.
  intros table z x y row columns i data Hrow Hinfo Hindex Hnth.
  simpl in Hrow, Hinfo. unfold Samples.stored in Hrow.
  destruct (String.eqb_spec table "tiles") as [-> | Hne]; [ | discriminate ].
  simpl in Hinfo. injection Hinfo as <-.
  destruct ((z =? 14)%Z && (x =? 9904)%Z && (y =? 11262)%Z); [ | discriminate ].
  injection Hrow as <-.
  vm_compute in Hindex. injection Hindex as <-. discriminate.
Qed.

Lemma elevation_unknown_without_image_witness :
  get_elevation Samples.mbtiles
    (np_degrees Samples.mbtiles 0.9730) (np_degrees Samples.mbtiles 0.6566) = None /\
  check_collision Samples.mbtiles [0.9730; 0.6566; 1000]%float = Returns (false, infinity).
Proof.
  exact (elevation_unknown_without_image Samples.mbtiles mbtiles_no_image
           0.9730%float 0.6566%float 1000%float []).
Defined.

End TileTable.

(** ** matrix_to_earth.py and equation_of_flight.py: rotation, gravity, heading *)

Section DynamicsExtras.

Import Rotation.

Local Open Scope R_scope.

Ltac entrywise :=
  repeat match goal with
  | |- (_ :: _) = (_ :: _) => apply (f_equal2 cons)
  | |- (_, _) = (_, _) => apply (f_equal2 pair)
  | |- @nil _ = @nil _ => reflexivity
  end.

Lemma sin_cos_one (a : R) : sin a * sin a + cos a * cos a = 1.
Proof. exact (sin2_cos2 a). Qed.

(** X9. The matrix of [get_rotation_matrix] is orthogonal for all angles:
    its transpose is its inverse on both sides, and it keeps the squared
    length of every vector. *)
Theorem get_rotation_matrix_is_rotation (roll pitch heading : R) :
  let Rm := MatrixToEarth.get_rotation_matrix roll pitch heading in
  Np.matmul (Np.transpose Rm) Rm = [ [1; 0; 0]; [0; 1; 0]; [0; 0; 1] ] /\
  Np.matmul Rm (Np.transpose Rm) = [ [1; 0; 0]; [0; 1; 0]; [0; 0; 1] ] /\
  (forall x y z : R,
      Np.dot (Np.matvec Rm [x; y; z]) (Np.matvec Rm [x; y; z]) = x * x + y * y + z * z).
Proof.
  intros Rm. subst Rm.
  pose proof (sin_cos_one roll) as Hr.
  pose proof (sin_cos_one pitch) as Hp.
  pose proof (sin_cos_one heading) as Hh.
  unfold MatrixToEarth.get_rotation_matrix, Np.matmul, Np.matvec, Np.transpose,
    Np.column, Np.dot.
  simpl.
  set (sr := sin roll) in *. set (cr := cos roll) in *.
  set (sp := sin pitch) in *. set (cp := cos pitch) in *.
  set (sh := sin heading) in *. set (ch := cos heading) in *.
  assert (Hr' : cr * cr = 1 - sr * sr) by lra.
  assert (Hp' : cp * cp = 1 - sp * sp) by lra.
  assert (Hh' : ch * ch = 1 - sh * sh) by lra.
  repeat split.
  - entrywise; ring_simplify; 
      repeat (try replace (cr ^ 2) with (1 - sr ^ 2) by (simpl; lra);
              try replace (cp ^ 2) with (1 - sp ^ 2) by (simpl; lra);
              try replace (ch ^ 2) with (1 - sh ^ 2) by (simpl; lra)); ring.
  - entrywise; ring_simplify; 
      repeat (try replace (cr ^ 2) with (1 - sr ^ 2) by (simpl; lra);
              try replace (cp ^ 2) with (1 - sp ^ 2) by (simpl; lra);
              try replace (ch ^ 2) with (1 - sh ^ 2) by (simpl; lra)); ring.
  - intros x y z. ring_simplify.
      repeat (try replace (cr ^ 2) with (1 - sr ^ 2) by (simpl; lra);
              try replace (cp ^ 2) with (1 - sp ^ 2) by (simpl; lra);
              try replace (ch ^ 2) with (1 - sh ^ 2) by (simpl; lra)); ring.
Qed.

(** X10. [calculate_derivatives] raises on a state of fewer than nine
    entries (an unpacking of lines 31-33 fails), and on any state of nine
    entries or more it returns nine derivatives, the entries past the ninth
    being ignored. *)
Theorem calculate_derivatives_needs_nine (state : Np.ndarray) (t : R) :
  ((List.length state < 9)%nat -> FlightEquations.calculate_derivatives state t = Raises) /\
  ((9 <= List.length state)%nat ->
   exists d, FlightEquations.calculate_derivatives state t = Returns d /\
             List.length d = 9%nat).
Proof.
  unfold FlightEquations.calculate_derivatives.
  do 9 (destruct state as [ | ? state]; [ simpl; split; [ reflexivity | lia ] | ]).
  split; [ simpl; lia | ]. intros _. eexists. split; reflexivity.
Qed.

(** X11. The derivatives of the body velocities are the components of
    gravity in the body frame: they depend on the roll and the pitch only,
    not on the heading, the position or the velocity, and the sum of their
    squares is [g ^ 2]. *)
Theorem gravity_in_body_frame
    (lat lon alt Vx Vy Vz roll pitch heading t : R) (rest : list R) :
  exists d_lat d_lon d_alt d_roll d_pitch d_heading,
    FlightEquations.calculate_derivatives
      (lat :: lon :: alt :: Vx :: Vy :: Vz :: roll :: pitch :: heading :: rest) t
    = Returns [ d_lat; d_lon; d_alt;
                FlightEquations.g * sin pitch;
                - FlightEquations.g * cos pitch * sin roll;
                - FlightEquations.g * cos pitch * cos roll;
                d_roll; d_pitch; d_heading ] /\
    (FlightEquations.g * sin pitch) ^ 2
    + (- FlightEquations.g * cos pitch * sin roll) ^ 2
    + (- FlightEquations.g * cos pitch * cos roll) ^ 2 = FlightEquations.g ^ 2.
Proof.
  unfold FlightEquations.calculate_derivatives.
  do 6 eexists. split.
  - unfold MatrixToEarth.get_rotation_matrix, Np.matmul, Np.matvec, Np.transpose,
      Np.column, Np.dot. simpl.
    apply f_equal. entrywise; try reflexivity; ring.
  - pose proof (sin_cos_one roll) as Hr. pose proof (sin_cos_one pitch) as Hp.
    set (G := FlightEquations.g).
    replace ((G * sin pitch) ^ 2 + (- G * cos pitch * sin roll) ^ 2
             + (- G * cos pitch * cos roll) ^ 2)
      with (G ^ 2 * (sin pitch * sin pitch
                     + cos pitch * cos pitch * (sin roll * sin roll + cos roll * cos roll)))
      by ring.
    rewrite Hr, Rmult_1_r, Hp. ring.
Qed.


(** X12. The heading rate of a derivative is at most [0.2 * pi] in absolute
    value, whatever the state. *)
Theorem heading_rate_bounded (state : Np.ndarray) (t : R) :
  Rabs (heading_rate state t) <= 0.2 * PI.
Proof.
  pose proof PI_RGT_0 as Hpi.
  unfold heading_rate, FlightEquations.calculate_derivatives.
  do 9 (destruct state as [ | ? state];
        [ simpl; rewrite Rabs_R0; lra | ]).
  cbn [nth].
  match goal with
  | |- context [Rgt_dec ?v ?e] => destruct (Rgt_dec v e)
  end.
  - match goal with
    | |- context [Np.arctan2 (sin ?d) (cos ?d)] =>
        pose proof (arctan2_range (sin d) (cos d)) as Hrange;
        set (w := Np.arctan2 (sin d) (cos d)) in *
    end.
    apply Rabs_le. lra.
  - rewrite Rabs_R0. lra.
Qed.



End DynamicsExtras.

(** ** math/RK4.py: steps in closed form *)

Section RungeKuttaExtras.

Local Open Scope R_scope.

Lemma scale_ext (a b : R) (s : Np.ndarray) : a = b -> Np.scale a s = Np.scale b s.
Proof. now intros ->. Qed.

Lemma scale_scale (a b : R) (s : Np.ndarray) :
  Np.scale a (Np.scale b s) = Np.scale (a * b) s.
Proof.
  unfold Np.scale. rewrite map_map. apply map_ext. intros x. ring.
Qed.

Lemma vsum_scale_scale (a b : R) (s : Np.ndarray) :
  vsum (Np.scale a s) (Np.scale b s) = Np.scale (a + b) s.
Proof.
  unfold vsum, Np.scale. induction s as [ | x s IH]; simpl; [ reflexivity | ].
  rewrite IH. f_equal. ring.
Qed.

Lemma vsum_self_scale (b : R) (s : Np.ndarray) :
  vsum s (Np.scale b s) = Np.scale (1 + b) s.
Proof.
  unfold vsum, Np.scale. induction s as [ | x s IH]; simpl; [ reflexivity | ].
  rewrite IH. f_equal. ring.
Qed.

Lemma vsum_twice (a b : Np.ndarray) :
  List.length a = List.length b ->
  vsum (vsum a (Np.scale 2 b)) (Np.scale 2 b) = vsum a (Np.scale 4 b).
Proof.
  unfold vsum, Np.scale. revert b.
  induction a as [ | x a IH]; intros [ | y b] H; simpl in *; try congruence.
  rewrite IH by congruence. f_equal. ring.
Qed.

(** X15. For a derivative that depends on the time only, the step is
    Simpson's rule on the interval from [t] to [t + dt]: the middle
    derivative is counted four times. *)
Theorem rk4_step_simpson (g : R -> Np.ndarray) (s : Np.ndarray) (dt t : R) :
  (forall u, List.length (g u) = List.length s) ->
  RK4.rk4_step (fun _ u => Returns (g u)) s dt t
  = Returns (vsum s (Np.scale (dt / 6)
                       (vsum (vsum (g t) (Np.scale 4 (g (t + dt / 2)))) (g (t + dt))))).
Proof.
  intros Hg.
  destruct (rk4_step_expanded (List.length s) (fun _ u => Returns (g u)) s dt t)
    as (k1 & k2 & k3 & k4 & _ & [= <-] & [= <-] & [= <-] & [= <-] & ->);
    [ intros a u _; now exists (g u) | reflexivity | ].
  rewrite vsum_twice; [ reflexivity | ].
  rewrite !Hg. reflexivity.
Qed.

Lemma rk4_step_simpson_witness :
  RK4.rk4_step (fun _ u => Returns [u * u]) [0] 1 0
  = Returns (vsum [0] (Np.scale (1 / 6)
              (vsum (vsum [0 * 0] (Np.scale 4 [(0 + 1 / 2) * (0 + 1 / 2)]))
                    [(0 + 1) * (0 + 1)]))).
Proof.
  apply (rk4_step_simpson (fun u => [u * u]) [0] 1 0). reflexivity.
Defined.

Lemma add_scaled (a b : R) (s : Np.ndarray) :
  Np.add (Np.scale a s) (Np.scale b s) = Returns (Np.scale (a + b) s).
Proof.
  rewrite (add_shapes (List.length s)) by auto with shapes.
  now rewrite vsum_scale_scale.
Qed.

Lemma add_self_scaled (b : R) (s : Np.ndarray) :
  Np.add s (Np.scale b s) = Returns (Np.scale (1 + b) s).
Proof.
  rewrite (add_shapes (List.length s)) by auto with shapes.
  now rewrite vsum_self_scale.
Qed.

(** X16. For the linear equation [state' = k * state] the step multiplies
    the state by the Taylor polynomial of degree four of the exponential at
    [k * dt]. *)
Theorem rk4_step_linear (k : R) (s : Np.ndarray) (dt t : R) :
  let h := k * dt in
  RK4.rk4_step (fun a _ => Returns (Np.scale k a)) s dt t
  = Returns (Np.scale (1 + h + h ^ 2 / 2 + h ^ 3 / 6 + h ^ 4 / 24) s).
Proof.
  intros h. unfold RK4.rk4_step. simpl.
  rewrite scale_scale, add_self_scaled. simpl.
  rewrite !scale_scale, add_self_scaled. simpl.
  rewrite !scale_scale, add_self_scaled. simpl.
  rewrite !scale_scale, add_scaled. simpl.
  rewrite add_scaled. simpl. rewrite add_scaled. simpl.
  rewrite scale_scale, add_self_scaled.
  f_equal. apply scale_ext. subst h. field.
Qed.

(** X17. When the first derivative has another number of entries than the
    state, neither of the two being one, the first sum of line 18 cannot be
    formed and the step raises. *)
Theorem rk4_step_shape_mismatch_raises (f : Np.ndarray -> R -> outcome Np.ndarray)
    (s k1 : Np.ndarray) (dt t : R) :
  f s t = Returns k1 ->
  List.length k1 <> List.length s ->
  List.length k1 <> 1%nat ->
  List.length s <> 1%nat ->
  RK4.rk4_step f s dt t = Raises.
Proof.
  intros Hk1 Hne Hk Hs. unfold RK4.rk4_step. rewrite Hk1. simpl.
  assert (Hadd : Np.add s (Np.scale (dt / 2) k1) = Raises).
  { unfold Np.add. rewrite (scale_shape (List.length k1)) by reflexivity.
    destruct (Nat.eqb_spec (List.length s) (List.length k1)) as [E | _]; [ congruence | ].
    destruct s as [ | x [ | y s]]; [ | now elim Hs | ];
      (destruct k1 as [ | z [ | w k1]]; [ | now elim Hk | ]); reflexivity. }
  now rewrite Hadd.
Qed.

Lemma rk4_step_shape_mismatch_raises_witness :
  RK4.rk4_step (fun _ _ => Returns [0; 0]) [1; 2; 3] 1 0 = Raises.
Proof.
  apply (rk4_step_shape_mismatch_raises (fun _ _ => Returns [0; 0]) [1; 2; 3] [0; 0] 1 0).
  - reflexivity.
  - simpl. lia.
  - simpl. lia.
  - simpl. lia.
Defined.

End RungeKuttaExtras.

(** ** math/trajectory_prediction.py: the points of a prediction *)

Section PredictorExtras.

Import TrajectoryPredictor.

Local Open Scope R_scope.

Lemma holds_grows (h h' : heap) (points : list ref) (values : list Np.ndarray) :
  grows h h' -> holds h points values -> holds h' points values.
Proof.
  intros Hg H. induction H; constructor; auto. now apply (grows_lookup h).
Qed.

Lemma predict_loop_chain (dt : R) (steps : nat) :
  forall (state : ref) (t : R) (trajectory : list ref) (h : heap) (a : Np.ndarray),
    nth_error h state = Some a -> List.length a = 9%nat ->
    exists new h' values,
      predict_loop dt steps state t trajectory h = (Returns (trajectory ++ new), h') /\
      grows h h' /\
      holds h' new values /\
      List.length values = steps /\
      Forall (fun v => List.length v = 9%nat) values /\
      stepwise dt t (a :: values) /\
      NoDup new /\
      Forall (fun p => List.length h <= p)%nat new.
Proof.
  induction steps as [ | steps IH]; intros state t trajectory h a Hstate Ha.
  - exists [], h, []. rewrite app_nil_r. repeat split; try constructor.
    + apply grows_refl.
    + intros i x y Hx Hy. simpl in Hy. destruct i; discriminate.
  - simpl. unfold sbind at 1. rewrite call_rk4_step_run, Hstate.
    destruct (rk4_step_shape 9 _ a dt t calculate_derivatives_shape Ha) as (a' & Hstep & Ha').
    rewrite Hstep.
    unfold sbind at 1. rewrite np_copy_run, lookup_new.
    assert (Hstate' : nth_error ((h ++ [a']) ++ [a']) (List.length h) = Some a').
    { apply grows_lookup with (h := h ++ [a']); [ now exists [a'] | apply lookup_new ]. }
    destruct (IH (List.length h) (t + dt) (trajectory ++ [List.length (h ++ [a'])])
                 ((h ++ [a']) ++ [a']) a' Hstate' Ha')
      as (new & h' & values & E & Hgrows & Hholds & Hcount & Hshapes & Hsteps & Hnodup & Hfresh).
    exists (List.length (h ++ [a']) :: new), h', (a' :: values).
    split; [ rewrite <- (app_assoc trajectory) in E; exact E | ].
    split.
    { apply grows_trans with (h2 := (h ++ [a']) ++ [a']); [ | exact Hgrows ].
      exists [a'; a']. now rewrite <- app_assoc. }
    split.
    { constructor; [ | exact Hholds ].
      apply (grows_lookup ((h ++ [a']) ++ [a'])); [ exact Hgrows | apply lookup_new ]. }
    split; [ simpl; now rewrite Hcount | ].
    split; [ now constructor | ].
    split.
    { intros [ | i] x y Hx Hy.
      - simpl in Hx, Hy. injection Hx as <-. injection Hy as <-.
        simpl. now replace (t + 0 * dt) with t by ring.
      - simpl in Hx. change (nth_error (a :: a' :: values) (S (S i)))
          with (nth_error (a' :: values) (S i)) in Hy.
        rewrite S_INR. replace (t + (INR i + 1) * dt) with (t + dt + INR i * dt) by ring.
        now apply (Hsteps i x y). }
    split.
    { constructor; [ | exact Hnodup ].
      intros Hin. rewrite Forall_forall in Hfresh. apply Hfresh in Hin.
      rewrite !length_app in Hin. simpl in Hin. lia. }
    constructor.
    + rewrite length_app. lia.
    + eapply Forall_impl; [ | exact Hfresh ]. intros p. rewrite !length_app. simpl. lia.
Qed.

(** The outcome of a prediction from a state of nine entries, when the
    number of steps is computed. *)
Lemma predict_trajectory_chain
    (h : heap) (initial_state : ref) (s0 : Np.ndarray) (dt prediction_time : float)
    (n : Z) :
  nth_error h initial_state = Some s0 ->
  List.length s0 = 9%nat ->
  steps dt prediction_time = Returns n ->
  exists trajectory h' values,
    predict_trajectory initial_state dt prediction_time h = (Returns trajectory, h') /\
    holds h' trajectory (s0 :: values) /\
    List.length values = Z.to_nat n /\
    Forall (fun v => List.length v = 9%nat) values /\
    stepwise (real_of_float dt) 0 (s0 :: values) /\
    NoDup trajectory /\
    Forall (fun p => List.length h <= p)%nat trajectory.
Proof.
  intros Hs0 Hshape Hn.
  rewrite (predict_trajectory_run h initial_state s0), Hn by exact Hs0.
  destruct (predict_loop_chain (real_of_float dt) (Z.to_nat n)
              (List.length (h ++ [s0])) 0 [List.length h] ((h ++ [s0]) ++ [s0]) s0)
    as (new & h' & values & E & Hgrows & Hholds & Hcount & Hshapes & Hsteps & Hnodup & Hfresh);
    [ apply lookup_new | exact Hshape | ].
  exists ([List.length h] ++ new), h', values.
  split; [ exact E | ].
  destruct (first_copy_kept h h' s0 Hgrows) as [_ Hfirst].
  split; [ now constructor | ].
  split; [ exact Hcount | ].
  split; [ exact Hshapes | ].
  split; [ exact Hsteps | ].
  split.
  - simpl. constructor; [ | exact Hnodup ].
    intros Hin. rewrite Forall_forall in Hfresh. apply Hfresh in Hin.
    rewrite !length_app in Hin. simpl in Hin. lia.
  - simpl. constructor; [ lia | ].
    eapply Forall_impl; [ | exact Hfresh ]. intros p. rewrite !length_app. simpl. lia.
Qed.

(** X18. A prediction from a state of nine entries raises, before it copies
    anything, exactly when the number of steps [int(prediction_time / dt)]
    cannot be computed (a step that is zero, a quotient that is infinite or
    NaN). Otherwise it returns one point more than that number, and the
    points are chained: the first point holds the initial state, and each
    further point holds the Runge-Kutta step of the point before it, the step
    from the point at index [i] being taken at the time [i * dt]. *)
Theorem predict_trajectory_successive_points
    (h : heap) (initial_state : ref) (s0 : Np.ndarray) (dt prediction_time : float) :
  nth_error h initial_state = Some s0 ->
  List.length s0 = 9%nat ->
  (steps dt prediction_time = Raises ->
   predict_trajectory initial_state dt prediction_time h = (Raises, h)) /\
  (forall n : Z,
      steps dt prediction_time = Returns n ->
      exists (trajectory : list ref) (h' : heap) (values : list Np.ndarray),
        predict_trajectory initial_state dt prediction_time h = (Returns trajectory, h') /\
        holds h' trajectory values /\
        List.length values = S (Z.to_nat n) /\
        nth_error values 0 = Some s0 /\
        forall (i : nat) (a b : Np.ndarray),
          nth_error values i = Some a ->
          nth_error values (S i) = Some b ->
          RK4.rk4_step FlightEquations.calculate_derivatives a
            (real_of_float dt) (INR i * real_of_float dt) = Returns b).
Proof.
  intros Hs0 Hshape. split.
  - intros Hraise. now rewrite (predict_trajectory_run h initial_state s0), Hraise.
  - intros n Hn.
    destruct (predict_trajectory_chain h initial_state s0 dt prediction_time n Hs0 Hshape Hn)
      as (trajectory & h' & values & E & Hholds & Hcount & _ & Hsteps & _).
    exists trajectory, h', (s0 :: values).
    split; [ exact E | ]. split; [ exact Hholds | ].
    split; [ simpl; now rewrite Hcount | ]. split; [ reflexivity | ].
    intros i a b Ha Hb. specialize (Hsteps i a b Ha Hb).
    now replace (0 + INR i * real_of_float dt) with (INR i * real_of_float dt)
      in Hsteps by ring.
Qed.

Lemma predict_trajectory_successive_points_witness :
  (steps 0.1%float 1.0%float = Raises ->
   predict_trajectory 0%nat 0.1%float 1.0%float [Samples.level_flight]
   = (Raises, [Samples.level_flight])) /\
  (forall n : Z,
      steps 0.1%float 1.0%float = Returns n ->
      exists (trajectory : list ref) (h' : heap) (values : list Np.ndarray),
        predict_trajectory 0%nat 0.1%float 1.0%float [Samples.level_flight]
        = (Returns trajectory, h') /\
        holds h' trajectory values /\
        List.length values = S (Z.to_nat n) /\
        nth_error values 0 = Some Samples.level_flight /\
        forall (i : nat) (a b : Np.ndarray),
          nth_error values i = Some a ->
          nth_error values (S i) = Some b ->
          RK4.rk4_step FlightEquations.calculate_derivatives a
            (real_of_float 0.1%float) (INR i * real_of_float 0.1%float) = Returns b).
Proof.
  apply (predict_trajectory_successive_points
           [Samples.level_flight] 0%nat Samples.level_flight 0.1%float 1.0%float);
    reflexivity.
Defined.

(** X19. Whenever the number of steps is computed, the points of the
    trajectory predicted from a state of nine entries are pairwise distinct
    arrays, all of them created during the call (none is an array of the
    caller), and each holds nine entries. *)
Theorem predict_trajectory_points_distinct
    (h : heap) (initial_state : ref) (s0 : Np.ndarray) (dt prediction_time : float)
    (n : Z) :
  nth_error h initial_state = Some s0 ->
  List.length s0 = 9%nat ->
  steps dt prediction_time = Returns n ->
  exists (trajectory : list ref) (h' : heap),
    predict_trajectory initial_state dt prediction_time h = (Returns trajectory, h') /\
    NoDup trajectory /\
    Forall (fun p => (List.length h <= p)%nat /\
                     exists a, nth_error h' p = Some a /\ List.length a = 9%nat)
           trajectory.
Proof.
  intros Hs0 Hshape Hn.
  destruct (predict_trajectory_chain h initial_state s0 dt prediction_time n Hs0 Hshape Hn)
    as (trajectory & h' & values & E & Hholds & _ & Hshapes & _ & Hnodup & Hfresh).
  exists trajectory, h'. split; [ exact E | ]. split; [ exact Hnodup | ].
  assert (Hall : Forall (fun v => List.length v = 9%nat) (s0 :: values))
    by now constructor.
  clear E Hnodup. revert Hfresh Hall.
  induction Hholds as [ | p v points vals Hp Hrest IH]; intros Hfresh Hall; constructor.
  - inversion Hfresh; subst. inversion Hall; subst. split; [ assumption | now exists v ].
  - inversion Hfresh; subst. inversion Hall; subst. now apply IH.
Qed.

Lemma predict_trajectory_points_distinct_witness :
  exists (trajectory : list ref) (h' : heap),
    predict_trajectory 0%nat 0.1%float 1.0%float [Samples.level_flight]
    = (Returns trajectory, h') /\
    NoDup trajectory /\
    Forall (fun p => (List.length [Samples.level_flight] <= p)%nat /\
                     exists a, nth_error h' p = Some a /\ List.length a = 9%nat)
           trajectory.
Proof.
  apply (predict_trajectory_points_distinct
           [Samples.level_flight] 0%nat Samples.level_flight 0.1%float 1.0%float 10);
    reflexivity.
Defined.

(** X20. When the number of steps [int(prediction_time / dt)] is zero or
    negative (a horizon shorter than the step, or of the other sign), the
    trajectory is the copy of the initial state alone, whatever the shape of
    that state: the derivatives are never computed. The call creates two
    arrays, both copies of the initial state. *)
Theorem predict_trajectory_short_horizon
    (h : heap) (initial_state : ref) (s0 : Np.ndarray) (dt prediction_time : float)
    (n : Z) :
  nth_error h initial_state = Some s0 ->
  steps dt prediction_time = Returns n ->
  (n <= 0)%Z ->
  predict_trajectory initial_state dt prediction_time h
  = (Returns [List.length h], (h ++ [s0]) ++ [s0]).
Proof.
  intros Hs0 Hn Hle.
  rewrite (predict_trajectory_run h initial_state s0), Hn by exact Hs0.
  now replace (Z.to_nat n) with 0%nat by lia.
Qed.

(** A horizon of half a step, and one of the other sign than the step. *)
Lemma predict_trajectory_short_horizon_witness :
  predict_trajectory 0%nat 0.1%float 0.05%float [[1; 2; 3]]
  = (Returns [List.length [[1; 2; 3]]], ([[1; 2; 3]] ++ [[1; 2; 3]]) ++ [[1; 2; 3]]) /\
  predict_trajectory 0%nat 0.1%float (-5)%float [[1; 2; 3]]
  = (Returns [List.length [[1; 2; 3]]], ([[1; 2; 3]] ++ [[1; 2; 3]]) ++ [[1; 2; 3]]).
Proof.
  split.
  - apply (predict_trajectory_short_horizon [[1; 2; 3]] 0%nat [1; 2; 3]
             0.1%float 0.05%float 0); [ reflexivity | reflexivity | lia ].
  - apply (predict_trajectory_short_horizon [[1; 2; 3]] 0%nat [1; 2; 3]
             0.1%float (-5)%float (-50)); [ reflexivity | reflexivity | lia ].
Defined.

Lemma rk4_step_wrong_shape (s : Np.ndarray) (dt t : R) :
  List.length s <> 9%nat ->
  RK4.rk4_step FlightEquations.calculate_derivatives s dt t = Raises.
Proof.
  intros Hs. unfold RK4.rk4_step.
  destruct (Nat.lt_ge_cases (List.length s) 9) as [Hshort | Hlong].
  - assert (E : FlightEquations.calculate_derivatives s t = Raises).
    { unfold FlightEquations.calculate_derivatives.
      do 9 (destruct s as [ | ? s]; [ reflexivity | ]). simpl in Hshort. lia. }
    now rewrite E.
  - assert (E : exists k1, FlightEquations.calculate_derivatives s t = Returns k1 /\
                           List.length k1 = 9%nat).
    { unfold FlightEquations.calculate_derivatives.
      do 9 (destruct s as [ | ? s]; [ simpl in Hlong; lia | ]).
      eexists. split; reflexivity. }
    destruct E as (k1 & -> & Hk1). simpl.
    assert (Hadd : Np.add s (Np.scale (dt / 2) k1) = Raises).
    { unfold Np.add. rewrite (scale_shape 9) by exact Hk1.
      destruct (Nat.eqb_spec (List.length s) 9) as [E | _]; [ contradiction | ].
      do 2 (destruct s as [ | ? s]; [ simpl in Hlong; lia | ]).
      do 2 (destruct k1 as [ | ? k1]; [ discriminate | ]). reflexivity. }
    now rewrite Hadd.
Qed.

(** X21. A prediction of at least one step, the horizon being at least the
    step and the step above zero, from a state that does not hold exactly
    nine entries raises: at the first Runge-Kutta step, or already at the
    number of steps when the quotient is infinite. *)
Theorem predict_trajectory_wrong_shape
    (h : heap) (initial_state : ref) (s0 : Np.ndarray) (dt prediction_time : float) :
  nth_error h initial_state = Some s0 ->
  List.length s0 <> 9%nat ->
  (0 <? dt)%float = true ->
  (dt <=? prediction_time)%float = true ->
  fst (predict_trajectory initial_state dt prediction_time h) = Raises.
Proof.
  intros Hs0 Hshape Hdt HT.
  rewrite (predict_trajectory_run h initial_state s0) by exact Hs0.
  rewrite steps_quotient by now apply positive_not_zero.
  destruct (Py.int_of_float (prediction_time / dt)%float) as [n | ] eqn:Hn;
    [ | reflexivity ].
  pose proof (quotient_at_least_one _ _ n Hdt HT Hn) as Hone.
  destruct (Z.to_nat n) as [ | k] eqn:Hk; [ lia | ].
  simpl. unfold sbind at 1. rewrite call_rk4_step_run, lookup_new.
  now rewrite rk4_step_wrong_shape.
Qed.

Lemma predict_trajectory_wrong_shape_witness :
  fst (predict_trajectory 0%nat 0.1%float 1.0%float [[1; 2; 3]]) = Raises.
Proof.
  apply (predict_trajectory_wrong_shape [[1; 2; 3]] 0%nat [1; 2; 3] 0.1%float 1.0%float);
    [ reflexivity | simpl; lia | reflexivity | reflexivity ].
Defined.

End PredictorExtras.

(** ** math/test.py: what the scan prints *)

Section ScanExtras.

Import Test.

Local Open Scope float_scope.

(** X23. The scan stops at the first point reported as a collision: the
    points after it are neither checked nor reported, so that the scan of
    the whole trajectory is the scan of its part up to that point. *)
Theorem scan_stops_at_collision
    (check_collision : list float -> outcome (bool * float))
    (get_collision_warning_level : float -> Z)
    (before after : list (list float)) (point : list float) (distance : float) (i : nat) :
  check_collision point = Returns (true, distance) ->
  scan check_collision get_collision_warning_level i (before ++ point :: after)
  = scan check_collision get_collision_warning_level i (before ++ [point]).
Proof.
  intros Hpoint. revert i.
  induction before as [ | p before IH]; intros i; simpl.
  - rewrite Hpoint. reflexivity.
  - destruct (check_collision p) as [[has_collision d] | ]; simpl; [ | reflexivity ].
    destruct (0 <? get_collision_warning_level d)%Z; simpl.
    + destruct (Py.float_of_int (Z.of_nat i)); simpl; [ | reflexivity ].
      destruct has_collision; simpl; [ reflexivity | ]. now rewrite IH.
    + destruct has_collision; simpl; [ reflexivity | ]. now rewrite IH.
Qed.

Lemma scan_stops_at_collision_witness :
  scan (fun p => match p with [] => Raises | x :: _ => Returns (x <? 0, x) end)
       TerrainChecker.get_collision_warning_level 0 ([[700]] ++ [-5] :: [[]; [3]])
  = scan (fun p => match p with [] => Raises | x :: _ => Returns (x <? 0, x) end)
       TerrainChecker.get_collision_warning_level 0 ([[700]] ++ [[-5]]).
Proof.
  apply (scan_stops_at_collision
           (fun p => match p with [] => Raises | x :: _ => Returns (x <? 0, x) end)
           TerrainChecker.get_collision_warning_level [[700]] [[]; [3]] [-5] (-5) 0).
  reflexivity.
Defined.

Lemma without_data_result (env : TerrainChecker.environment) (point : list float) :
  without_data env point ->
  TerrainChecker.check_collision env point = Returns (false, infinity).
Proof.
  intros (lat & lon & alt & rest & -> & H).
  unfold TerrainChecker.check_collision. simpl.
  destruct H as [-> | ->]; [ reflexivity | ].
  now destruct (TerrainChecker.in_coverage _ _).
Qed.

(** X24. A trajectory all of whose points are without elevation data, each
    outside the coverage box or of unknown elevation, is scanned to its end,
    and the scan reports nothing: no warning (lines 108-110) and no collision
    notice (line 113). What [check_collision] prints itself for a point
    outside the box (line 149) is no part of the report. *)
Theorem scan_reports_nothing_without_data
    (env : TerrainChecker.environment) (trajectory : list (list float)) (i : nat) :
  Forall (without_data env) trajectory ->
  scan (TerrainChecker.check_collision env) TerrainChecker.get_collision_warning_level
       i trajectory
  = ([], Returns tt).
Proof.
  intros H. revert i. induction H as [ | point rest Hpoint _ IH]; intros i; simpl.
  - reflexivity.
  - rewrite (without_data_result env point Hpoint). simpl.
    change (TerrainChecker.get_collision_warning_level infinity) with 0%Z. simpl.
    now rewrite IH.
Qed.

Lemma scan_reports_nothing_without_data_witness :
  scan (TerrainChecker.check_collision Samples.mbtiles)
       TerrainChecker.get_collision_warning_level 0
       [[0; 0; 1000]; [0.9730; 0.6566; 1000]]
  = ([], Returns tt).
Proof.
  apply (scan_reports_nothing_without_data Samples.mbtiles
           [[0; 0; 1000]; [0.9730; 0.6566; 1000]] 0).
  constructor; [ | constructor; [ | constructor ] ].
  - exists 0, 0, 1000, []. split; [ reflexivity | left; vm_compute; reflexivity ].
  - exists 0.9730, 0.6566, 1000, []. split; [ reflexivity | right; vm_compute; reflexivity ].
Defined.

(** X25. When the index is outside the navigation data, or the row at the
    index has fewer than nine entries, [predict_from_point] raises before it
    predicts or prints anything. *)
Theorem predict_from_point_bad_row
    (predict_trajectory : list float -> float -> float -> outcome (list (list float)))
    (check_collision : list float -> outcome (bool * float))
    (get_collision_warning_level : float -> Z)
    (np_radians : float -> float)
    (nav_data : list (list float)) (point_index : nat) :
  (forall row, nth_error nav_data point_index = Some row -> (List.length row < 9)%nat) ->
  predict_from_point predict_trajectory check_collision get_collision_warning_level
    np_radians nav_data point_index
  = ([], Raises).
Proof.
  intros H. unfold predict_from_point, getitem at 1.
  destruct (nth_error nav_data point_index) as [row | ]; [ | reflexivity ].
  specialize (H row eq_refl).
  do 9 (destruct row as [ | ? row]; [ reflexivity | ]).
  simpl in H. lia.
Qed.

Lemma predict_from_point_bad_row_witness :
  predict_from_point (fun s _ _ => Returns [s]) (fun _ => Returns (false, infinity))
    TerrainChecker.get_collision_warning_level (fun x => x) [[1; 2; 3]] 0
  = ([], Raises).
Proof.
  apply (predict_from_point_bad_row (fun s _ _ => Returns [s])
           (fun _ => Returns (false, infinity))
           TerrainChecker.get_collision_warning_level (fun x => x) [[1; 2; 3]] 0).
  intros row [= <-]. simpl. lia.
Defined.

End ScanExtras.

(** ** math/test.py with terrain_checker.py: the collision notice *)

Section ScanCollision.

Import Test TerrainChecker.

Local Open Scope float_scope.

Lemma ends_with_collision (w : report) (pre post : list report) :
  w <> CollisionDetected ->
  [w; CollisionDetected] = pre ++ CollisionDetected :: post ->
  pre = [w] /\ post = [].
Proof.
  intros Hw H. destruct pre as [ | e [ | e' pre]]; simpl in H.
  - injection H as H _. congruence.
  - injection H as <- <-. now split.
  - injection H as _ _ H. now destruct pre.
Qed.

(** X26. With the terrain checker of [terrain_checker.py], the collision
    notice is the last thing the scan prints, and it directly follows a
    warning of level 3 with a negative distance. *)
Theorem collision_report_follows_high_warning
    (env : environment) (trajectory : list (list float)) :
  forall (i : nat) (pre post : list report),
    fst (scan (check_collision env) get_collision_warning_level i trajectory)
    = pre ++ CollisionDetected :: post ->
    post = [] /\
    exists (pre' : list report) (time distance : float),
      pre = pre' ++ [Warning 3 time distance] /\ (distance <? 0) = true.
Proof.
  induction trajectory as [ | point rest IH]; intros i pre post H; simpl in H.
  - now destruct pre.
  - destruct (check_collision env point) as [[has_collision d] | ] eqn:Hcheck;
      simpl in H; [ | now destruct pre ].
    pose proof (check_collision_result env point _ _ Hcheck) as Hflag.
    destruct has_collision.
    + rewrite (negative_clearance_high d) in H by now symmetry.
      simpl in H.
      destruct (Py.float_of_int (Z.of_nat i)) as [index | ]; simpl in H;
        [ | now destruct pre ].
      apply ends_with_collision in H; [ | discriminate ].
      destruct H as [-> ->]. split; [ reflexivity | ].
      exists [], (index * 0.1), d. split; [ reflexivity | now symmetry ].
    + destruct (0 <? get_collision_warning_level d)%Z; simpl in H.
      * destruct (Py.float_of_int (Z.of_nat i)) as [index | ]; simpl in H;
          [ | now destruct pre ].
        destruct (scan (check_collision env) get_collision_warning_level (S i) rest)
          as [log r] eqn:Hscan.
        simpl in H. destruct pre as [ | e pre]; simpl in H; [ discriminate | ].
        injection H as <- H.
        specialize (IH (S i) pre post). rewrite Hscan in IH.
        destruct (IH H) as (Hpost & pre' & time & distance & -> & Hneg).
        split; [ exact Hpost | ].
        now exists (Warning (get_collision_warning_level d) (index * 0.1) d :: pre'),
                   time, distance.
      * destruct (scan (check_collision env) get_collision_warning_level (S i) rest)
          as [log r] eqn:Hscan.
        simpl in H. specialize (IH (S i) pre post). rewrite Hscan in IH. now apply IH.
Qed.

Lemma collision_report_follows_high_warning_witness :
  @nil report = [] /\
  exists (pre' : list report) (time distance : float),
    [Warning 3 0 (-55051)] = pre' ++ [Warning 3 time distance] /\
    (distance <? 0) = true.
Proof.
  apply (collision_report_follows_high_warning Samples.blob_first
           [[0.9730; 0.6566; 1000]; [0; 0; 0]] 0 [Warning 3 0 (-55051)] []).
  vm_compute. reflexivity.
Defined.

End ScanCollision.
